(** * piu: requesting SSH access through the Even access-granting service

    A shallow embedding of [piu/cli.py].  Python values are modelled by a
    small dynamic type, the dictionaries of the program by [gmap], and the
    effects of the command (file system, keyring, terminal prompts, network)
    by a state-and-exception monad that also records every observable
    action of a run. *)

From Stdlib Require Import ZArith Ascii DecimalString.
From stdpp Require Import base option list gmap strings.

Local Open Scope Z_scope.

(** ** Python string methods used by the program *)

Module Str.

Definition eqb (s t : string) : bool := bool_decide (s = t).

Definition ascii_eqb (c d : ascii) : bool := bool_decide (c = d).

(** [s.startswith(p)] *)
Fixpoint startswith (p s : string) : bool :=
  match p, s with
  | EmptyString, _ => true
  | String a p', String b s' => ascii_eqb a b && startswith p' s'
  | String _ _, EmptyString => false
  end.

(** [s.endswith(suf)]: [s] is [suf], or the tail of [s] ends with [suf]. *)
Fixpoint endswith (suf s : string) : bool :=
  eqb s suf ||
  match s with
  | EmptyString => false
  | String _ s' => endswith suf s'
  end.

(** [s.rstrip(chars)], for a set of characters given as a predicate. *)
Fixpoint rstrip (drop : ascii → bool) (s : string) : string :=
  match s with
  | EmptyString => EmptyString
  | String c s' =>
      match rstrip drop s' with
      | EmptyString => if drop c then EmptyString else String c EmptyString
      | r => String c r
      end
  end.

(** [s.lstrip(chars)] *)
Fixpoint lstrip (drop : ascii → bool) (s : string) : string :=
  match s with
  | EmptyString => EmptyString
  | String c s' => if drop c then lstrip drop s' else s
  end.

(** Code points below 256 for which [str.isspace] holds. *)
Definition isspace (c : ascii) : bool :=
  let n := Z.of_nat (nat_of_ascii c) in
  ((9 <=? n) && (n <=? 13)) || ((28 <=? n) && (n <=? 32))
  || (n =? 133) || (n =? 160).

(** [s.strip()] *)
Definition strip (s : string) : string := rstrip isspace (lstrip isspace s).

(** [s.split(sep)] for a one-character separator. *)
Fixpoint split (sep : ascii) (s : string) : list string :=
  match s with
  | EmptyString => [EmptyString]
  | String c s' =>
      if ascii_eqb c sep then EmptyString :: split sep s'
      else match split sep s' with
           | h :: t => String c h :: t
           | [] => [String c EmptyString]
           end
  end.

(** [sep.join(parts)] *)
Fixpoint join (sep : string) (parts : list string) : string :=
  match parts with
  | [] => EmptyString
  | [p] => p
  | p :: rest => p +:+ sep +:+ join sep rest
  end.

(** [s.count(c)] for a character [c]. *)
Fixpoint count (c : ascii) (s : string) : nat :=
  match s with
  | EmptyString => 0
  | String d s' => (if ascii_eqb d c then 1 else 0) + count c s'
  end.

(** [c in s] for a character [c]. *)
Fixpoint contains (c : ascii) (s : string) : bool :=
  match s with
  | EmptyString => false
  | String d s' => ascii_eqb d c || contains c s'
  end.

(** The characters that a literal of this file cannot hold. *)
Definition newline : string := String "010"%char EmptyString.
Definition dquote : string := String "034"%char EmptyString.

(** [str(n)] for an integer. *)
Definition of_Z (n : Z) : string := NilZero.string_of_int (Z.to_int n).

End Str.

(** ** Python values

    The values that flow through the command: [None], booleans, integers and
    strings.  Command-line values are [str] or [None]; the values read from
    the YAML configuration may be any scalar. *)

Inductive pyval :=
| PNone
| PBool (b : bool)
| PInt (n : Z)
| PStr (s : string).

#[global] Instance pyval_eq_dec : EqDecision pyval.
Proof. solve_decision. Defined.

(** [bool(v)] *)
Definition truthy (v : pyval) : bool :=
  match v with
  | PNone => false
  | PBool b => b
  | PInt n => negb (n =? 0)
  | PStr s => negb (Str.eqb s "")
  end.

(** [a or b] *)
Definition py_or (a b : pyval) : pyval := if truthy a then a else b.

(** [a == b] ([bool] is a subtype of [int], so [True == 1]). *)
Definition py_eqb (a b : pyval) : bool :=
  match a, b with
  | PNone, PNone => true
  | PStr s, PStr t => Str.eqb s t
  | PBool x, PBool y => bool_decide (x = y)
  | PInt x, PInt y => x =? y
  | PBool x, PInt y | PInt y, PBool x => (if x then 1 else 0) =? y
  | _, _ => false
  end.

(** [str(v)], as used by [str.format]. *)
Definition py_str (v : pyval) : string :=
  match v with
  | PNone => "None"
  | PBool true => "True"
  | PBool false => "False"
  | PInt n => Str.of_Z n
  | PStr s => s
  end.

(** A [str]-or-[None] value from the command line. *)
Definition of_opt (o : option string) : pyval :=
  match o with
  | Some s => PStr s
  | None => PNone
  end.

(** A Python [dict] with string keys whose order of insertion matters (the
    JSON object of the request): [d[k] = v]. *)
Fixpoint dict_set (k : string) (v : pyval) (d : list (string * pyval)) : list (string * pyval) :=
  match d with
  | [] => [(k, v)]
  | (k', v') :: d' => if Str.eqb k' k then (k, v) :: d' else (k', v') :: dict_set k v d'
  end.

(** [d.get(k)] on the configuration dictionary. *)
Definition dict_get (d : gmap string pyval) (k : string) : pyval := default PNone (d !! k).

(** ** IP addresses ([ipaddress]) *)

Inductive ip_addr :=
| IPv4Address (n : Z)
| IPv6Address (n : Z).

Inductive ip_net :=
| IPv4Network (network_address netmask : Z)
| IPv6Network (network_address netmask : Z).

(** [ipaddress.ip_network('a.b.c.d/len')] for an IPv4 network. *)
Definition ip_network_v4 (a b c d prefixlen : Z) : ip_net :=
  IPv4Network (Z.shiftl a 24 + Z.shiftl b 16 + Z.shiftl c 8 + d)
              (2 ^ 32 - 2 ^ (32 - prefixlen)).

Definition STUPS_CIDR : ip_net := ip_network_v4 172 31 0 0 16.

(** [ip in net]: false across versions, otherwise the masked address is the
    network address. *)
Definition ip_in (ip : ip_addr) (net : ip_net) : bool :=
  match ip, net with
  | IPv4Address n, IPv4Network a m => Z.land n m =? a
  | IPv6Address n, IPv6Network a m => Z.land n m =? a
  | _, _ => false
  end.

Module IPv4.

Definition is_digit (c : ascii) : bool :=
  let n := nat_of_ascii c in (48 <=? n)%nat && (n <=? 57)%nat.

Fixpoint all_digits (s : string) : bool :=
  match s with
  | EmptyString => true
  | String c s' => is_digit c && all_digits s'
  end.

(** [int(s, 10)] on a string of digits. *)
Fixpoint int10 (acc : Z) (s : string) : Z :=
  match s with
  | EmptyString => acc
  | String c s' => int10 (10 * acc + (Z.of_nat (nat_of_ascii c) - 48)) s'
  end.

(** [IPv4Address._parse_octet]: a non-empty run of at most three ASCII
    digits, without a leading zero unless it is ["0"], at most 255. *)
Definition parse_octet (s : string) : option Z :=
  if Str.eqb s "" then None
  else if negb (all_digits s) then None
  else if (3 <? String.length s)%nat then None
  else if negb (Str.eqb s "0") && Str.startswith "0" s then None
  else let n := int10 0 s in
       if 255 <? n then None else Some n.

(** [int.from_bytes(octets, 'big')] *)
Definition from_bytes (octets : list Z) : Z :=
  foldl (λ acc o, 256 * acc + o) 0 octets.

(** [IPv4Address(s)]; [None] stands for [AddressValueError]. *)
Definition from_string (s : string) : option Z :=
  if Str.contains "/" s then None
  else if Str.eqb s "" then None
  else
    let octets := Str.split "." s in
    if negb (length octets =? 4)%nat then None
    else from_bytes <$> mapM parse_octet octets.

End IPv4.

(** ** The world outside the program *)

(** What [yaml.safe_load] can return.  Mappings are restricted to string
    keys and scalar values, which is all the program looks at. *)
Inductive yaml_doc :=
| YDict (d : gmap string pyval)
| YScalar (v : pyval)
| YList (items : list pyval).

(** The external collaborators, as functions of their arguments.  [None]
    stands for a raised exception. *)
Record env := {
  (** [ipaddress.IPv6Address(s)] *)
  ipv6_from_string : string → option Z;
  (** [yaml.safe_load] on the contents of a file *)
  yaml_safe_load : string → option yaml_doc;
  (** [yaml.dump] *)
  yaml_dump : gmap string pyval → string;
  (** does [requests.get(url)] return? *)
  requests_get_ok : string → bool;
  (** does [socket.getaddrinfo(host, 22)] return? *)
  getaddrinfo_ok : string → bool;
  (** [zign.api.get_named_token(['uid'], 'employees', 'piu', user, password)] *)
  get_named_token : option string → string → option (gmap string pyval);
  (** [requests.post(url, headers=..., data=json.dumps(data), verify=...)]:
      status code and text of the response *)
  requests_post : string → list (string * string) → list (string * pyval) → pyval → option (Z * string);
  (** did [import pyperclip] succeed? *)
  pyperclip_present : bool
}.

Inductive fsnode :=
| Directory
| RegularFile (content : string).

(** The mutable part of the world.  [stdin] lists the values that the
    successive calls of [click.prompt] return; at its end [click.prompt]
    raises [Abort].  Permissions and the intermediate components of a path
    are not modelled. *)
Record state := {
  fs : gmap string fsnode;
  keyring : gmap (string * option string) string;
  stdin : list string
}.

Definition set_fs (f : gmap string fsnode) (st : state) : state :=
  {| fs := f; keyring := keyring st; stdin := stdin st |}.

Definition set_keyring (k : gmap (string * option string) string) (st : state) : state :=
  {| fs := fs st; keyring := k; stdin := stdin st |}.

Definition set_stdin (i : list string) (st : state) : state :=
  {| fs := fs st; keyring := keyring st; stdin := i |}.

(** The observable actions of a run, in the order they happen.  [Secho],
    [Error] and [Info] are the messages of [click.secho] and of
    [clickclick]'s [error] and [info]; [TokenRequest] is the call of
    [zign.api.get_named_token]; the [data] of [HttpPost] is the dictionary
    that [json.dumps] turns into the body of the request. *)
Inductive event :=
| Prompt (text : string) (hide_input : bool) (answer : option string)
| Secho (text : string)
| Error (text : string)
| Info (text : string)
| HttpGet (url : string)
| GetAddrInfo (host : string) (port : Z)
| KeyringGet (service : string) (user : option string)
| KeyringSet (service : string) (user : option string) (password : string)
| TokenRequest (user : option string) (password : string)
| HttpPost (url : string) (headers : list (string * string)) (data : list (string * pyval))
           (verify : pyval)
| ClipboardCopy (text : string).

(** The exceptions that leave [cli]: [click.Abort] at the end of the input,
    the errors of the file system and of the YAML parser, the missing
    [endswith] of a service URL that is no string, and those of the token
    service and of the HTTP client. *)
Inductive exn :=
| Abort
| OSError
| YAMLError
| AttributeError
| TokenError
| RequestException.

Inductive outcome (A : Type) :=
| Ret (a : A)
| Raise (e : exn).
Arguments Ret {A} a.
Arguments Raise {A} e.

(** ** The monad of the program: state, exceptions and a log of events *)

Definition M (A : Type) : Type := state → outcome A * state * list event.

Definition ret {A} (a : A) : M A := λ st, (Ret a, st, []).

Definition raise {A} (e : exn) : M A := λ st, (Raise e, st, []).

Definition bind {A B} (m : M A) (f : A → M B) : M B :=
  λ st,
    match m st with
    | (Ret a, st1, ev1) =>
        match f a st1 with
        | (r, st2, ev2) => (r, st2, ev1 ++ ev2)
        end
    | (Raise e, st1, ev1) => (Raise e, st1, ev1)
    end.

Definition emit (ev : event) : M unit := λ st, (Ret tt, st, [ev]).

Declare Scope M_scope.
Delimit Scope M_scope with M.
Notation "x ← y ; z" := (bind y (λ x : _, z))
  (at level 20, y at level 100, z at level 200, only parsing) : M_scope.
Notation "' x ← y ; z" := (bind y (λ x : _, z))
  (at level 20, x pattern, y at level 100, z at level 200, only parsing) : M_scope.
Notation "x ;; z" := (bind x (λ _, z))
  (at level 100, z at level 200, only parsing, right associativity) : M_scope.
Local Open Scope M_scope.

Definition result_of {A} (r : outcome A * state * list event) : outcome A := r.1.1.
Definition state_of {A} (r : outcome A * state * list event) : state := r.1.2.
Definition events_of {A} (r : outcome A * state * list event) : list event := r.2.

(** ** Primitive effects *)

(** [click.prompt(text, hide_input=hide)] *)
Definition click_prompt (text : string) (hide : bool) : M string :=
  λ st,
    match stdin st with
    | [] => (Raise Abort, st, [Prompt text hide None])
    | a :: rest => (Ret a, set_stdin rest st, [Prompt text hide (Some a)])
    end.

(** [keyring.get_password(service, user)] *)
Definition keyring_get_password (service : string) (user : option string) : M (option string) :=
  λ st, (Ret (keyring st !! (service, user)), st, [KeyringGet service user]).

(** [keyring.set_password(service, user, password)] *)
Definition keyring_set_password (service : string) (user : option string) (password : string) : M unit :=
  λ st, (Ret tt, set_keyring (<[(service, user) := password]> (keyring st)) st,
         [KeyringSet service user password]).

(** [ipaddress.ip_address(s)]: an IPv4 address if [s] parses as one, else an
    IPv6 address if it parses as one, else [ValueError] ([None]). *)
Definition ip_address (e : env) (s : string) : option ip_addr :=
  match IPv4.from_string s with
  | Some n => Some (IPv4Address n)
  | None => IPv6Address <$> ipv6_from_string e s
  end.

(** [os.path.exists(path)] *)
Definition os_path_exists (path : string) : M bool :=
  λ st, (Ret (bool_decide (is_Some (fs st !! path))), st, []).

(** [open(path, 'rb')] followed by reading the whole file. *)
Definition read_file (path : string) : M string :=
  λ st,
    match fs st !! path with
    | Some (RegularFile content) => (Ret content, st, [])
    | Some Directory | None => (Raise OSError, st, [])
    end.

(** [open(path, 'w')] followed by writing [content]. *)
Definition write_file (path content : string) : M unit :=
  λ st,
    match fs st !! path with
    | Some Directory => (Raise OSError, st, [])
    | Some (RegularFile _) | None =>
        (Ret tt, set_fs (<[path := RegularFile content]> (fs st)) st, [])
    end.

(** [os.makedirs(path, exist_ok=True)] *)
Definition os_makedirs (path : string) : M unit :=
  λ st,
    match fs st !! path with
    | Some (RegularFile _) => (Raise OSError, st, [])
    | Some Directory => (Ret tt, st, [])
    | None => (Ret tt, set_fs (<[path := Directory]> (fs st)) st, [])
    end.

(** [p[:p.rfind('/') + 1]] *)
Fixpoint up_to_last_slash (p : string) : string :=
  match p with
  | EmptyString => EmptyString
  | String c p' =>
      if Str.contains "/" p' then String c (up_to_last_slash p')
      else if Str.ascii_eqb c "/" then String c EmptyString
      else EmptyString
  end.

(** [os.path.dirname(p)]: the head up to the last slash, without its
    trailing slashes unless it consists of slashes only. *)
Definition os_path_dirname (p : string) : string :=
  let head := up_to_last_slash p in
  match Str.rstrip (Str.ascii_eqb "/") head with
  | EmptyString => head
  | stripped => stripped
  end.

(** ** The program *)

Definition KEYRING_KEY : string := "piu".

(** [load_config] *)
Definition load_config (e : env) (path : string) : M (gmap string pyval) :=
  found ← os_path_exists path;
  if found then
    content ← read_file path;
    match yaml_safe_load e content with
    | None => raise YAMLError
    | Some (YDict config) => ret config
    | Some (YScalar _) | Some (YList _) => ret ∅
    end
  else ret ∅.

(** [store_config] *)
Definition store_config (e : env) (config : gmap string pyval) (path : string) : M unit :=
  let dir_path := os_path_dirname path in
  (if truthy (PStr dir_path) then os_makedirs dir_path else ret tt);;
  write_file path (yaml_dump e config).

(** Lines 64-70 of [request_access]: the dictionary that becomes the JSON
    body of the request. *)
Definition request_data (username hostname : pyval) (reason : string) (remote_host : pyval)
    (lifetime : option Z) : list (string * pyval) :=
  let data := [("username", username); ("hostname", hostname); ("reason", PStr reason)] in
  let data := if truthy remote_host then dict_set "remote_host" remote_host data else data in
  match lifetime with
  | Some n => if truthy (PInt n) then dict_set "lifetime_minutes" (PInt n) data else data
  | None => data
  end.

(** Lines 81-86 of [request_access]: the command shown after a success. *)
Definition ssh_command_line (username hostname remote_host : pyval) : string :=
  let ssh_command :=
    if truthy remote_host
    then "ssh -o StrictHostKeyChecking=no " +:+ py_str username +:+ "@" +:+ py_str remote_host
    else "" in
  "ssh -tA " +:+ py_str username +:+ "@" +:+ py_str hostname +:+ " " +:+ ssh_command.

(** Lines 75-76 of [request_access]: the headers of the request. *)
Definition request_headers (access_token : pyval) : list (string * string) :=
  [("Content-Type", "application/json");
   ("Authorization", "Bearer " +:+ py_str access_token)].

(** [request_access]; the result is the status code of the response. *)
Definition request_access (e : env) (even_url : string) (cacert : pyval)
    (username hostname : pyval) (reason : string) (remote_host : pyval)
    (lifetime : option Z) (user : option string) (password : string) (clip : bool) : M Z :=
  let data := request_data username hostname reason remote_host lifetime in
  let host_via :=
    if truthy remote_host then py_str remote_host +:+ " via " +:+ py_str hostname
    else py_str hostname in
  emit (TokenRequest user password);;
  token ← (match get_named_token e user password with
           | Some token => ret token
           | None => raise TokenError
           end);
  let access_token := dict_get token "access_token" in
  emit (Secho ("Requesting access to host " +:+ host_via +:+ " for "
               +:+ py_str username +:+ ".."));;
  let headers := request_headers access_token in
  emit (HttpPost even_url headers data cacert);;
  r ← (match requests_post e even_url headers data cacert with
       | Some r => ret r
       | None => raise RequestException
       end);
  let '(status_code, text) := r in
  (if status_code =? 200 then
     emit (Secho text);;
     emit (Secho "You can now access your server with the following command:");;
     let command := ssh_command_line username hostname remote_host in
     emit (Secho command);;
     if clip then
       emit (Secho (Str.newline
                    +:+ "Or just check your clipboard and run ctrl/command + v (requires package "
                    +:+ Str.dquote +:+ "xclip" +:+ Str.dquote +:+ " on Linux)"));;
       if pyperclip_present e then emit (ClipboardCopy command) else ret tt
     else ret tt
   else
     emit (Secho ("Server returned status " +:+ Str.of_Z status_code +:+ ": " +:+ text)));;
  ret status_code.

(** The arguments of [cli] as [click] passes them: options that were not
    given are [None]; [arg_lifetime] has been through
    [click.IntRange(1, 525600, clamp=True)]. *)
Record args := {
  arg_host : string;
  arg_user : option string;
  arg_password : option string;
  arg_even_url : option string;
  arg_odd_host : option string;
  arg_reason : string;
  arg_reason_cont : list string;
  arg_insecure : bool;
  arg_config_file : string;
  arg_lifetime : option Z;
  arg_clip : bool
}.

(** [click.IntRange(lo, hi, clamp=True)] *)
Definition int_range_clamp (lo hi n : Z) : Z :=
  if n <? lo then lo else if hi <? n then hi else n.

Definition EVEN_PROMPT : string := "Please enter the Even SSH access granting service URL".
Definition ODD_PROMPT : string := "Please enter the Odd SSH bastion hostname".

(** Lines 117-123 of [cli]: the user name and the host name of [[USER]@HOST]. *)
Definition parse_host (host : string) (user : option string) : option string * string :=
  let parts := Str.split "@" host in
  let username := if (1 <? length parts)%nat then head parts else user in
  let hostname := default EmptyString (last parts) in
  (username, hostname).

(** Lines 141-151 of [cli], [while not even_url]: every turn of the loop
    takes one answer from the terminal. *)
Fixpoint even_url_loop (e : env) (inputs : list string) (even_url : pyval)
    (config : gmap string pyval)
  : outcome (pyval * gmap string pyval) * list string * list event :=
  if negb (truthy even_url) then
    match inputs with
    | [] => (Raise Abort, [], [Prompt EVEN_PROMPT false None])
    | answer :: rest =>
        let url :=
          if negb (Str.startswith "http" answer) then "https://" +:+ answer else answer in
        let reached := requests_get_ok e url in
        let even_url := if reached then PStr url else PNone in
        let '(r, inputs', evs) :=
          even_url_loop e rest even_url (<["even_url" := even_url]> config) in
        (r, inputs',
         [Prompt EVEN_PROMPT false (Some answer); HttpGet url]
         ++ (if reached then [] else [Error ("Could not reach " +:+ url)])
         ++ evs)
    end
  else (Ret (even_url, config), inputs, []).

Definition prompt_even_url (e : env) (even_url : pyval) (config : gmap string pyval)
  : M (pyval * gmap string pyval) :=
  λ st,
    let '(r, inputs, evs) := even_url_loop e (stdin st) even_url config in
    (r, set_stdin inputs st, evs).

(** The condition of the second loop: [ip and ip in STUPS_CIDR and not odd_host].
    An address object is always true. *)
Definition bastion_missing (ip : option ip_addr) (odd_host : pyval) : bool :=
  match ip with
  | Some a => ip_in a STUPS_CIDR && negb (truthy odd_host)
  | None => false
  end.

(** Lines 153-160 of [cli]. *)
Fixpoint odd_host_loop (e : env) (ip : option ip_addr) (inputs : list string)
    (odd_host : pyval) (config : gmap string pyval)
  : outcome (pyval * gmap string pyval) * list string * list event :=
  if bastion_missing ip odd_host then
    match inputs with
    | [] => (Raise Abort, [], [Prompt ODD_PROMPT false None])
    | answer :: rest =>
        let resolved := getaddrinfo_ok e answer in
        let odd_host := if resolved then PStr answer else PNone in
        let '(r, inputs', evs) :=
          odd_host_loop e ip rest odd_host (<["odd_host" := odd_host]> config) in
        (r, inputs',
         [Prompt ODD_PROMPT false (Some answer); GetAddrInfo answer 22]
         ++ (if resolved then [] else [Error ("Could not resolve hostname " +:+ answer)])
         ++ evs)
    end
  else (Ret (odd_host, config), inputs, []).

Definition prompt_odd_host (e : env) (ip : option ip_addr) (odd_host : pyval)
    (config : gmap string pyval) : M (pyval * gmap string pyval) :=
  λ st,
    let '(r, inputs, evs) := odd_host_loop e ip (stdin st) odd_host config in
    (r, set_stdin inputs st, evs).

(** Lines 169-170 of [cli]. *)
Definition normalize_even_url (even_url : string) : string :=
  if negb (Str.endswith "/access-requests" even_url)
  then Str.rstrip (Str.ascii_eqb "/") even_url +:+ "/access-requests"
  else even_url.

(** Lines 172-183 of [cli]: the first hop and the remote host. *)
Definition resolve_hosts (hostname : string) (odd_host : pyval) : pyval * pyval :=
  let first_host := PStr hostname in
  let remote_host := PStr hostname in
  let first_host := if truthy odd_host then odd_host else first_host in
  if py_eqb first_host remote_host then (first_host, PNone)
  else if Str.startswith "odd-" hostname then (remote_host, PNone)
  else (first_host, remote_host).

(** The local variables of [cli] that the request is made from. *)
Record locals := {
  username : option string;
  hostname : string;
  reason : string;
  cacert : pyval;
  even_url : pyval;
  odd_host : pyval;
  config : gmap string pyval;
  password : string
}.

(** Lines 117-167 of [cli]: arguments, configuration, prompts and password. *)
Definition cli_locals (e : env) (a : args) : M locals :=
  let '(username, hostname) := parse_host (arg_host a) (arg_user a) in
  let user := arg_user a in
  let ip := ip_address e hostname in
  let reason := Str.strip (Str.join " " (arg_reason a :: arg_reason_cont a)) in
  let cacert := PBool (negb (arg_insecure a)) in
  config ← load_config e (arg_config_file a);
  let even_url := py_or (of_opt (arg_even_url a)) (dict_get config "even_url") in
  let odd_host := py_or (of_opt (arg_odd_host a)) (dict_get config "odd_host") in
  let cacert := match config !! "cacert" with Some v => v | None => cacert end in
  '(even_url, config) ← prompt_even_url e even_url config;
  '(odd_host, config) ← prompt_odd_host e ip odd_host config;
  store_config e config (arg_config_file a);;
  password ← (if truthy (of_opt (arg_password a)) then ret (arg_password a)
              else keyring_get_password KEYRING_KEY user);
  password ← (match password with
              | Some p => if truthy (PStr p) then ret p else click_prompt "Password" true
              | None => click_prompt "Password" true
              end);
  ret {| username := username; hostname := hostname; reason := reason; cacert := cacert;
         even_url := even_url; odd_host := odd_host; config := config;
         password := password |}.

(** Lines 169-193 of [cli]: the request and the update of the keyring. *)
Definition cli_request (e : env) (a : args) (l : locals) : M unit :=
  let user := arg_user a in
  even_url ← (match even_url l with
              | PStr s => ret (normalize_even_url s)
              | PNone | PBool _ | PInt _ => raise AttributeError
              end);
  let '(first_host, remote_host) := resolve_hosts (hostname l) (odd_host l) in
  return_code ← request_access e even_url (cacert l) (of_opt (username l)) first_host
                  (reason l) remote_host (arg_lifetime a) user (password l) (arg_clip a);
  if return_code =? 200 then keyring_set_password KEYRING_KEY user (password l)
  else if return_code =? 403 then
    emit (Info "Please check your username and password and try again.");;
    keyring_set_password KEYRING_KEY user ""
  else ret tt.

(** [cli] *)
Definition cli (e : env) (a : args) : M unit :=
  l ← cli_locals e a;
  cli_request e a l.

(** ** Notions used by the statements *)

(** The values of the settings before the loops ask for them. *)
Definition configured_even_url (a : args) (config0 : gmap string pyval) : pyval :=
  py_or (of_opt (arg_even_url a)) (dict_get config0 "even_url").

Definition configured_odd_host (a : args) (config0 : gmap string pyval) : pyval :=
  py_or (of_opt (arg_odd_host a)) (dict_get config0 "odd_host").

Definition configured_cacert (a : args) (config0 : gmap string pyval) : pyval :=
  match config0 !! "cacert" with
  | Some v => v
  | None => PBool (negb (arg_insecure a))
  end.

(** The events of the two loops: prompts, probes of the network and error
    messages. *)
Definition loop_event (ev : event) : Prop :=
  match ev with
  | Prompt _ _ _ | HttpGet _ | GetAddrInfo _ _ | Error _ => True
  | _ => False
  end.

(** The events of the set-up phase: those of the loops and reads of the
    keyring under the key of [user]. *)
Definition setup_event (user : option string) (ev : event) : Prop :=
  match ev with
  | KeyringGet service u => service = KEYRING_KEY ∧ u = user
  | _ => loop_event ev
  end.

Definition is_odd_prompt (ev : event) : Prop := ∃ answer, ev = Prompt ODD_PROMPT false answer.

(** The events that follow the answer of the service: messages, the
    clipboard and the write to the keyring under the key of [user]. *)
Definition report_event (user : option string) (ev : event) : Prop :=
  match ev with
  | Secho _ | Info _ | ClipboardCopy _ => True
  | KeyringSet service u _ => service = KEYRING_KEY ∧ u = user
  | _ => False
  end.

(** An event that is no access to the keyring, or one under the key of
    the service [KEYRING_KEY] and of [user]. *)
Definition keyed_by (user : option string) (ev : event) : Prop :=
  match ev with
  | KeyringGet service u | KeyringSet service u _ => service = "piu" ∧ u = user
  | _ => True
  end.

(** The URLs a run posts to, in order. *)
Definition post_urls (evs : list event) : list string :=
  omap (λ ev, match ev with HttpPost url _ _ _ => Some url | _ => None end) evs.

(** * A sample world *)

(** A world for the examples.  The YAML loader knows the documents below;
    ["{"] is a flow mapping that is never closed, which [yaml.safe_load]
    rejects with a [ParserError].  Every URL but [https://down.example] is
    reachable, every host but [nowhere] resolves, the token is granted and
    the service answers [status].  The text that [yaml.dump] writes is not
    read back by any example. *)
Definition sample_yaml_load (content : string) : option yaml_doc :=
  if Str.eqb content "" then Some (YScalar PNone)
  else if Str.eqb content "- a" then Some (YList [PStr "a"])
  else if Str.eqb content "cacert: true" then Some (YDict {["cacert" := PBool true]})
  else if Str.eqb content "even_url: 5" then Some (YDict {["even_url" := PInt 5]})
  else if Str.eqb content "odd_host: odd-eu.example.org"
       then Some (YDict {["odd_host" := PStr "odd-eu.example.org"]})
  else if Str.eqb content "{" then None
  else None.

Definition sample_env (status : Z) : env := {|
  ipv6_from_string := λ _, None;
  yaml_safe_load := sample_yaml_load;
  yaml_dump := λ _, "";
  requests_get_ok := λ url, negb (Str.eqb url "https://down.example");
  getaddrinfo_ok := λ host, negb (Str.eqb host "nowhere");
  get_named_token := λ _ _, Some {["access_token" := PStr "t0k3n"]};
  requests_post := λ _ _ _ _, Some (status, "ok");
  pyperclip_present := false
|}.

Definition sample_state (files : gmap string fsnode) (inputs : list string) : state :=
  {| fs := files; keyring := ∅; stdin := inputs |}.

Definition sample_args : args := {|
  arg_host := "deploy@my-host";
  arg_user := Some "alice";
  arg_password := Some "s3cret";
  arg_even_url := Some "https://x.example/";
  arg_odd_host := None;
  arg_reason := "testing";
  arg_reason_cont := [];
  arg_insecure := false;
  arg_config_file := "piu.yaml";
  arg_lifetime := None;
  arg_clip := false
|}.

Definition with_host (host : string) (a : args) : args := {|
  arg_host := host;
  arg_user := arg_user a;
  arg_password := arg_password a;
  arg_even_url := arg_even_url a;
  arg_odd_host := arg_odd_host a;
  arg_reason := arg_reason a;
  arg_reason_cont := arg_reason_cont a;
  arg_insecure := arg_insecure a;
  arg_config_file := arg_config_file a;
  arg_lifetime := arg_lifetime a;
  arg_clip := arg_clip a
|}.

Definition with_odd_host (odd_host : option string) (a : args) : args := {|
  arg_host := arg_host a;
  arg_user := arg_user a;
  arg_password := arg_password a;
  arg_even_url := arg_even_url a;
  arg_odd_host := odd_host;
  arg_reason := arg_reason a;
  arg_reason_cont := arg_reason_cont a;
  arg_insecure := arg_insecure a;
  arg_config_file := arg_config_file a;
  arg_lifetime := arg_lifetime a;
  arg_clip := arg_clip a
|}.

Definition with_password (password : option string) (a : args) : args := {|
  arg_host := arg_host a;
  arg_user := arg_user a;
  arg_password := password;
  arg_even_url := arg_even_url a;
  arg_odd_host := arg_odd_host a;
  arg_reason := arg_reason a;
  arg_reason_cont := arg_reason_cont a;
  arg_insecure := arg_insecure a;
  arg_config_file := arg_config_file a;
  arg_lifetime := arg_lifetime a;
  arg_clip := arg_clip a
|}.

Definition with_even_url (even_url : option string) (a : args) : args := {|
  arg_host := arg_host a;
  arg_user := arg_user a;
  arg_password := arg_password a;
  arg_even_url := even_url;
  arg_odd_host := arg_odd_host a;
  arg_reason := arg_reason a;
  arg_reason_cont := arg_reason_cont a;
  arg_insecure := arg_insecure a;
  arg_config_file := arg_config_file a;
  arg_lifetime := arg_lifetime a;
  arg_clip := arg_clip a
|}.

Definition with_clip (clip : bool) (a : args) : args := {|
  arg_host := arg_host a;
  arg_user := arg_user a;
  arg_password := arg_password a;
  arg_even_url := arg_even_url a;
  arg_odd_host := arg_odd_host a;
  arg_reason := arg_reason a;
  arg_reason_cont := arg_reason_cont a;
  arg_insecure := arg_insecure a;
  arg_config_file := arg_config_file a;
  arg_lifetime := arg_lifetime a;
  arg_clip := clip
|}.

Definition with_lifetime (lifetime : option Z) (a : args) : args := {|
  arg_host := arg_host a;
  arg_user := arg_user a;
  arg_password := arg_password a;
  arg_even_url := arg_even_url a;
  arg_odd_host := arg_odd_host a;
  arg_reason := arg_reason a;
  arg_reason_cont := arg_reason_cont a;
  arg_insecure := arg_insecure a;
  arg_config_file := arg_config_file a;
  arg_lifetime := lifetime;
  arg_clip := arg_clip a
|}.

Definition with_insecure (insecure : bool) (a : args) : args := {|
  arg_host := arg_host a;
  arg_user := arg_user a;
  arg_password := arg_password a;
  arg_even_url := arg_even_url a;
  arg_odd_host := arg_odd_host a;
  arg_reason := arg_reason a;
  arg_reason_cont := arg_reason_cont a;
  arg_insecure := insecure;
  arg_config_file := arg_config_file a;
  arg_lifetime := arg_lifetime a;
  arg_clip := arg_clip a
|}.



(** * Sanity checks of the string and address models *)

Example split_two : Str.split "@" "deploy@my-host" = ["deploy"; "my-host"].
Proof. reflexivity. Qed.

Example split_none : Str.split "@" "my-host" = ["my-host"].
Proof. reflexivity. Qed.

Example split_edges : Str.split "@" "@a@@" = [""; "a"; ""; ""].
Proof. reflexivity. Qed.

Example rstrip_slashes : Str.rstrip (Str.ascii_eqb "/") "https://x.example//" = "https://x.example".
Proof. reflexivity. Qed.

Example strip_ws : Str.strip "  fix the  disk " = "fix the  disk".
Proof. reflexivity. Qed.

Example of_Z_403 : Str.of_Z 403 = "403" ∧ Str.of_Z (-7) = "-7" ∧ Str.of_Z 0 = "0".
Proof. repeat split; reflexivity. Qed.

Example stups_cidr_value : STUPS_CIDR = IPv4Network 2887712768 4294901760.
Proof. reflexivity. Qed.

Example ipv4_parse_ok : IPv4.from_string "172.31.5.7" = Some 2887714055.
Proof. reflexivity. Qed.

Example ipv4_parse_rejects :
  IPv4.from_string "my-host" = None ∧ IPv4.from_string "172.31.5" = None
  ∧ IPv4.from_string "172.31.5.256" = None ∧ IPv4.from_string "172.031.5.7" = None
  ∧ IPv4.from_string "172.31.5.7/16" = None ∧ IPv4.from_string "" = None.
Proof. repeat split; reflexivity. Qed.

Example stups_members :
  ip_in (IPv4Address 2887714055) STUPS_CIDR = true
  ∧ ip_in (IPv4Address 2887778304) STUPS_CIDR = false
  ∧ ip_in (IPv6Address 2887714055) STUPS_CIDR = false.
Proof. repeat split; reflexivity. Qed.

Example dirname_values :
  os_path_dirname "/home/u/.config/piu/piu.yaml" = "/home/u/.config/piu"
  ∧ os_path_dirname "piu.yaml" = "" ∧ os_path_dirname "/piu.yaml" = "/"
  ∧ os_path_dirname "a//b" = "a".
Proof. repeat split; reflexivity. Qed.

(** * Sample runs *)

Example clamp_values :
  int_range_clamp 1 525600 70000 = 70000 ∧ int_range_clamp 1 525600 0 = 1
  ∧ int_range_clamp 1 525600 600000 = 525600.
Proof. repeat split; reflexivity. Qed.

(** No service URL is configured: the first answer cannot be reached, the
    second one can. *)
Example run_asks_for_url :
  let run := cli (sample_env 200) (with_even_url None sample_args)
               (sample_state ∅ ["down.example"; "http://x.example"]) in
  result_of run = Ret tt
  ∧ events_of run
    = [Prompt EVEN_PROMPT false (Some "down.example");
       HttpGet "https://down.example";
       Error "Could not reach https://down.example";
       Prompt EVEN_PROMPT false (Some "http://x.example");
       HttpGet "http://x.example";
       TokenRequest (Some "alice") "s3cret";
       Secho "Requesting access to host my-host for deploy..";
       HttpPost "http://x.example/access-requests" (request_headers (PStr "t0k3n"))
         [("username", PStr "deploy"); ("hostname", PStr "my-host"); ("reason", PStr "testing")]
         (PBool true);
       Secho "ok";
       Secho "You can now access your server with the following command:";
       Secho "ssh -tA deploy@my-host ";
       KeyringSet "piu" (Some "alice") "s3cret"].
Proof. split; vm_compute; reflexivity. Qed.

(** An address of the STUPS network and no bastion: the first answer does
    not resolve, the second one does and becomes the first hop. *)
Example run_asks_for_bastion :
  events_of (cli (sample_env 200) (with_host "172.31.5.7" sample_args)
               (sample_state ∅ ["nowhere"; "odd-eu.example.org"]))
  = [Prompt ODD_PROMPT false (Some "nowhere");
     GetAddrInfo "nowhere" 22;
     Error "Could not resolve hostname nowhere";
     Prompt ODD_PROMPT false (Some "odd-eu.example.org");
     GetAddrInfo "odd-eu.example.org" 22;
     TokenRequest (Some "alice") "s3cret";
     Secho "Requesting access to host 172.31.5.7 via odd-eu.example.org for alice..";
     HttpPost "https://x.example/access-requests" (request_headers (PStr "t0k3n"))
       [("username", PStr "alice"); ("hostname", PStr "odd-eu.example.org");
        ("reason", PStr "testing"); ("remote_host", PStr "172.31.5.7")]
       (PBool true);
     Secho "ok";
     Secho "You can now access your server with the following command:";
     Secho "ssh -tA alice@odd-eu.example.org ssh -o StrictHostKeyChecking=no alice@172.31.5.7";
     KeyringSet "piu" (Some "alice") "s3cret"].
Proof. vm_compute. reflexivity. Qed.

(** The terminal is at its end when the service URL is asked for. *)
Example run_aborts_at_end_of_input :
  let run := cli (sample_env 200) (with_even_url None sample_args) (sample_state ∅ []) in
  result_of run = Raise Abort ∧ events_of run = [Prompt EVEN_PROMPT false None].
Proof. split; vm_compute; reflexivity. Qed.

(** A service URL that is a number in the configuration file has no
    [endswith]. *)
Example run_with_numeric_url :
  result_of (cli (sample_env 200) (with_even_url None sample_args)
               (sample_state {["piu.yaml" := RegularFile "even_url: 5"]} []))
  = Raise AttributeError.
Proof. vm_compute. reflexivity. Qed.

(** The password comes from the keyring; the three kinds of answer. *)
Example run_200_stores_password :
  keyring (state_of (cli (sample_env 200) sample_args
                       (set_keyring {[("piu", Some "alice") := "old"]} (sample_state ∅ []))))
    !! ("piu", Some "alice")
  = Some "s3cret".
Proof. vm_compute. reflexivity. Qed.

Example run_403_clears_password :
  keyring (state_of (cli (sample_env 403) (with_password None sample_args)
                       (set_keyring {[("piu", Some "alice") := "old"]} (sample_state ∅ []))))
    !! ("piu", Some "alice")
  = Some "".
Proof. vm_compute. reflexivity. Qed.

Example run_500_keeps_password :
  let run := cli (sample_env 500) (with_password None sample_args)
               (set_keyring {[("piu", Some "alice") := "old"]} (sample_state ∅ [])) in
  keyring (state_of run) !! ("piu", Some "alice") = Some "old"
  ∧ events_of run
    = [KeyringGet "piu" (Some "alice");
       TokenRequest (Some "alice") "old";
       Secho "Requesting access to host my-host for deploy..";
       HttpPost "https://x.example/access-requests" (request_headers (PStr "t0k3n"))
         [("username", PStr "deploy"); ("hostname", PStr "my-host"); ("reason", PStr "testing")]
         (PBool true);
       Secho "Server returned status 500: ok"].
Proof. split; vm_compute; reflexivity. Qed.

(** A lifetime adds its field. *)
Example run_with_lifetime :
  post_urls (events_of (cli (sample_env 200) (with_lifetime (Some 30) sample_args)
                          (sample_state ∅ [])))
  = ["https://x.example/access-requests"]
  ∧ request_data (PStr "deploy") (PStr "my-host") "testing" PNone (Some 30)
    = [("username", PStr "deploy"); ("hostname", PStr "my-host"); ("reason", PStr "testing");
       ("lifetime_minutes", PInt 30)].
Proof. split; vm_compute; reflexivity. Qed.

(** * Facts about the string methods *)

Section StringFacts.

Implicit Types (s t u : string) (c sep : ascii).

Lemma eqb_true s t : Str.eqb s t = true ↔ s = t.
Proof. unfold Str.eqb. apply bool_decide_eq_true. Qed.

Lemma eqb_false s t : Str.eqb s t = false ↔ s ≠ t.
Proof. unfold Str.eqb. apply bool_decide_eq_false. Qed.


Lemma ascii_eqb_true c d : Str.ascii_eqb c d = true ↔ c = d.
Proof. unfold Str.ascii_eqb. apply bool_decide_eq_true. Qed.

Lemma ascii_eqb_false c d : Str.ascii_eqb c d = false ↔ c ≠ d.
Proof. unfold Str.ascii_eqb. apply bool_decide_eq_false. Qed.

Lemma ascii_eqb_refl c : Str.ascii_eqb c c = true.
Proof. by apply ascii_eqb_true. Qed.

Lemma append_cons c s t : String c s +:+ t = String c (s +:+ t).
Proof. reflexivity. Qed.

Lemma append_nil_l s : "" +:+ s = s.
Proof. reflexivity. Qed.

Ltac str_simpl := rewrite ?append_cons, ?append_nil_l; simpl.

Lemma append_nil_r s : s +:+ "" = s.
Proof. induction s as [|c s IH]; str_simpl; [done | by f_equal]. Qed.

Lemma append_assoc s t u : (s +:+ t) +:+ u = s +:+ t +:+ u.
Proof. induction s as [|c s IH]; str_simpl; [done | by f_equal]. Qed.

(** A string that ends with [suf] is some prefix followed by [suf]. *)
Lemma endswith_spec suf s : Str.endswith suf s = true ↔ ∃ p, s = p +:+ suf.
Proof.
  induction s as [|c s IH]; simpl.
  - rewrite orb_false_r, eqb_true. split.
    + intros <-. by exists "".
    + intros [[|d p] Hp]; revert Hp; str_simpl; [done | discriminate].
  - rewrite orb_true_iff, eqb_true, IH. split.
    + intros [<- | [p ->]]; [by exists "" | by exists (String c p)].
    + intros [[|d p] Hp]; revert Hp; str_simpl; intros Hp; [by left | right].
      injection Hp as -> ->. by exists p.
Qed.


(** [rstrip] cuts a run of dropped characters off the end... *)
Lemma rstrip_decompose (drop : ascii → bool) s :
  ∃ tail, s = Str.rstrip drop s +:+ tail ∧ Str.rstrip drop tail = "".
Proof.
  induction s as [|c s (tail & Hs & Htail)]; simpl.
  - by exists "".
  - destruct (Str.rstrip drop s) as [|d r] eqn:Hr.
    + destruct (drop c) eqn:Hc.
      * exists (String c s). split; [done |]. simpl. by rewrite Hr, Hc.
      * exists s. by split.
    + exists tail. split; [| done]. rewrite append_cons. by f_equal.
Qed.

(** ... and what is left does not end with a dropped character. *)
Lemma rstrip_last (drop : ascii → bool) s p c :
  Str.rstrip drop s = p +:+ String c "" → drop c = false.
Proof.
  revert p. induction s as [|d s IH]; intros p; simpl.
  - destruct p; str_simpl; discriminate.
  - destruct (Str.rstrip drop s) as [|d' r] eqn:Hr.
    + destruct (drop d) eqn:Hd.
      * destruct p; str_simpl; discriminate.
      * destruct p as [|? [|? ?]]; str_simpl; intros [= <-]; done || discriminate.
    + destruct p as [|x p]; str_simpl; [discriminate |].
      intros [= -> Hp]. by apply (IH p).
Qed.

(** A string that is stripped to nothing holds dropped characters only. *)
Lemma rstrip_empty_all (drop : ascii → bool) s c :
  Str.rstrip drop s = "" → Str.contains c s = true → drop c = true.
Proof.
  induction s as [|d s IH]; simpl; [done |].
  destruct (Str.rstrip drop s) eqn:Hr; [| done].
  destruct (drop d) eqn:Hd; [| done].
  intros _ [Hc | Hc]%orb_true_iff; [| by apply IH].
  apply ascii_eqb_true in Hc. by subst.
Qed.

Lemma split_nonempty sep s : Str.split sep s ≠ [].
Proof.
  destruct s as [|c s]; simpl; [done |].
  destruct (Str.ascii_eqb c sep); [done |].
  by destruct (Str.split sep s).
Qed.

(** Without a separator there is one part. *)
Lemma split_no_sep sep s : Str.contains sep s = false → Str.split sep s = [s].
Proof.
  induction s as [|c s IH]; simpl; [done |].
  intros [Hc Hs]%orb_false_iff. rewrite Hc, (IH Hs). done.
Qed.

(** The first part is the text before the first separator. *)
Lemma split_head sep u rest :
  Str.contains sep u = false →
  ∃ parts, Str.split sep (u +:+ String sep rest) = u :: parts ∧ parts ≠ [].
Proof.
  induction u as [|c u IH]; str_simpl.
  - intros _. rewrite ascii_eqb_refl. eexists. split; [done | apply split_nonempty].
  - intros [Hc Hu]%orb_false_iff. rewrite Hc.
    destruct (IH Hu) as (parts & -> & Hne). by exists parts.
Qed.

(** The last part is the text after the last separator. *)
Lemma split_last sep pre h :
  Str.contains sep h = false →
  ∃ parts, Str.split sep (pre +:+ String sep h) = parts ++ [h] ∧ parts ≠ [].
Proof.
  intros Hh. induction pre as [|c pre (parts & IH & Hne)]; str_simpl.
  - rewrite ascii_eqb_refl, (split_no_sep _ _ Hh). by exists [""].
  - rewrite IH. destruct (Str.ascii_eqb c sep).
    + by exists ("" :: parts).
    + destruct parts as [|p parts]; [done |]. simpl. by exists (String c p :: parts).
Qed.

End StringFacts.

(** * Facts about the parts of a run *)

Local Open Scope M_scope.


Lemma load_config_run e path st :
  load_config e path st =
    (match fs st !! path with
     | None => Ret ∅
     | Some Directory => Raise OSError
     | Some (RegularFile content) =>
         match yaml_safe_load e content with
         | None => Raise YAMLError
         | Some (YDict d) => Ret d
         | Some (YScalar _) | Some (YList _) => Ret ∅
         end
     end, st, []).
Proof.
  unfold load_config, bind, os_path_exists, read_file. cbn beta.
  destruct (fs st !! path) as [[|content]|] eqn:Hpath; simpl; rewrite ?Hpath; try done.
  by destruct (yaml_safe_load e content) as [[]|].
Qed.

Lemma store_config_run e cfg path st r st' evs :
  store_config e cfg path st = (r, st', evs) →
  evs = [] ∧ keyring st' = keyring st ∧ stdin st' = stdin st.
Proof.
  unfold store_config, bind, os_makedirs, write_file, ret. cbn beta.
  destruct (truthy _).
  - destruct (fs st !! _) as [[|?]|]; simpl;
      repeat case_match; intros; simplify_eq; done.
  - simpl. repeat case_match; intros; simplify_eq; done.
Qed.

Lemma even_url_loop_run e inputs eu cfg r inputs' evs :
  even_url_loop e inputs eu cfg = (r, inputs', evs) →
  Forall (λ ev, loop_event ev ∧ ¬ is_odd_prompt ev) evs
  ∧ (truthy eu = true → r = Ret (eu, cfg) ∧ inputs' = inputs ∧ evs = [])
  ∧ (∀ eu' cfg', r = Ret (eu', cfg') → truthy eu' = true).
Proof.
  revert eu cfg r inputs' evs.
  induction inputs as [|answer rest IH]; intros eu cfg r inputs' evs; simpl.
  - destruct (truthy eu) eqn:Heu; simpl; intros [= <- <- <-].
    + split_and!; [done | done | by intros ?? [= <- <-]].
    + split_and!; [| done | done].
      repeat constructor. intros [? [=]].
  - destruct (truthy eu) eqn:Heu; simpl.
    + intros [= <- <- <-]. split_and!; [done | done | by intros ?? [= <- <-]].
    + destruct (even_url_loop e rest _ _) as [[r0 in0] ev0] eqn:Hrec.
      intros [= <- <- <-]. destruct (IH _ _ _ _ _ Hrec) as (Hev & _ & Hret).
      split_and!; [| done | done].
      repeat (constructor; [split; [done | intros [? [=]]] |]).
      apply Forall_app. split; [| done].
      destruct (requests_get_ok e _); repeat constructor. intros [? [=]].
Qed.

Lemma odd_host_loop_run e ip inputs odd cfg r inputs' evs :
  odd_host_loop e ip inputs odd cfg = (r, inputs', evs) →
  Forall loop_event evs
  ∧ (bastion_missing ip odd = false → r = Ret (odd, cfg) ∧ inputs' = inputs ∧ evs = [])
  ∧ (bastion_missing ip odd = true → ∃ answer rest, evs = Prompt ODD_PROMPT false answer :: rest)
  ∧ (∀ odd' cfg', r = Ret (odd', cfg') → bastion_missing ip odd' = false).
Proof.
  revert odd cfg r inputs' evs.
  induction inputs as [|answer rest IH]; intros odd cfg r inputs' evs; simpl.
  - destruct (bastion_missing ip odd) eqn:Hodd; simpl; intros [= <- <- <-].
    + split_and!; [by repeat constructor | done | by eauto | done].
    + split_and!; [done | done | done | by intros ?? [= <- <-]].
  - destruct (bastion_missing ip odd) eqn:Hodd; simpl.
    + destruct (odd_host_loop e ip rest _ _) as [[r0 in0] ev0] eqn:Hrec.
      intros [= <- <- <-]. destruct (IH _ _ _ _ _ Hrec) as (Hev & _ & _ & Hret).
      split_and!; [| done | by eauto | done].
      repeat (constructor; [done |]).
      apply Forall_app. split; [| done].
      destruct (getaddrinfo_ok e _); by repeat constructor.
    + intros [= <- <- <-]. split_and!; [done | done | done | by intros ?? [= <- <-]].
Qed.

Lemma loop_setup_event user evs : Forall loop_event evs → Forall (setup_event user) evs.
Proof. intros H. eapply Forall_impl; [done |]. by intros []. Qed.

Lemma bind_inv {A B} (m : M A) (f : A → M B) st r st' evs :
  bind m f st = (r, st', evs) →
  (∃ a st1 ev1 ev2, m st = (Ret a, st1, ev1) ∧ f a st1 = (r, st', ev2) ∧ evs = ev1 ++ ev2)
  ∨ (∃ x, m st = (Raise x, st', evs) ∧ r = Raise x).
Proof.
  unfold bind. destruct (m st) as [[[a|x] st1] ev1].
  - destruct (f a st1) as [[r2 st2] ev2] eqn:Hf. intros [= <- <- <-].
    left. by exists a, st1, ev1, ev2.
  - intros [= <- <- <-]. right. by exists x.
Qed.

Lemma bind_ret_run {A B} (m : M A) (f : A → M B) st a st1 ev1 :
  m st = (Ret a, st1, ev1) →
  bind m f st = (result_of (f a st1), state_of (f a st1), ev1 ++ events_of (f a st1)).
Proof. unfold bind. intros ->. by destruct (f a st1) as [[??]?]. Qed.

Lemma bind_raise_run {A B} (m : M A) (f : A → M B) st x st1 ev1 :
  m st = (Raise x, st1, ev1) → bind m f st = (Raise x, st1, ev1).
Proof. unfold bind. by intros ->. Qed.

Lemma prompt_even_url_inv e eu cfg st r st' evs :
  prompt_even_url e eu cfg st = (r, st', evs) →
  keyring st' = keyring st
  ∧ Forall (λ ev, loop_event ev ∧ ¬ is_odd_prompt ev) evs
  ∧ (truthy eu = true → r = Ret (eu, cfg) ∧ evs = [])
  ∧ (∀ eu' cfg', r = Ret (eu', cfg') → truthy eu' = true).
Proof.
  unfold prompt_even_url.
  destruct (even_url_loop e (stdin st) eu cfg) as [[r0 in0] ev0] eqn:Hloop.
  intros [= <- <- <-]. destruct (even_url_loop_run _ _ _ _ _ _ _ Hloop) as (? & Himm & ?).
  split_and!; [done | done | | done]. intros Heu. by destruct (Himm Heu) as (? & ? & ?).
Qed.

Lemma prompt_odd_host_inv e ip odd cfg st r st' evs :
  prompt_odd_host e ip odd cfg st = (r, st', evs) →
  keyring st' = keyring st
  ∧ Forall loop_event evs
  ∧ (bastion_missing ip odd = false → r = Ret (odd, cfg) ∧ evs = [])
  ∧ (bastion_missing ip odd = true → ∃ answer rest, evs = Prompt ODD_PROMPT false answer :: rest)
  ∧ (∀ odd' cfg', r = Ret (odd', cfg') → bastion_missing ip odd' = false).
Proof.
  unfold prompt_odd_host.
  destruct (odd_host_loop e ip (stdin st) odd cfg) as [[r0 in0] ev0] eqn:Hloop.
  intros [= <- <- <-]. destruct (odd_host_loop_run _ _ _ _ _ _ _ _ Hloop) as (? & Himm & ? & ?).
  split_and!; [done | done | | done | done]. intros Hodd. by destruct (Himm Hodd) as (? & ? & ?).
Qed.

(** The two steps that settle the password: the option, else the keyring,
    else a prompt. *)
Lemma password_steps_inv (a : args) st r st' evs :
  bind (if truthy (of_opt (arg_password a)) then ret (arg_password a)
        else keyring_get_password KEYRING_KEY (arg_user a))
       (λ password,
          match password with
          | Some p => if truthy (PStr p) then ret p else click_prompt "Password" true
          | None => click_prompt "Password" true
          end) st = (r, st', evs) →
  keyring st' = keyring st
  ∧ Forall (λ ev, setup_event (arg_user a) ev ∧ ¬ is_odd_prompt ev) evs
  ∧ (truthy (of_opt (arg_password a)) = true → ∀ p, r = Ret p → arg_password a = Some p).
Proof.
  assert (Hprompt : ∀ st0 r0 st0' evs0,
    click_prompt "Password" true st0 = (r0, st0', evs0) →
    keyring st0' = keyring st0
    ∧ Forall (λ ev, setup_event (arg_user a) ev ∧ ¬ is_odd_prompt ev) evs0).
  { unfold click_prompt. intros st0 r0 st0' evs0.
    destruct (stdin st0); intros [= <- <- <-]; (split; [done |]);
      repeat constructor; intros [? [=]]. }
  intros [(pw & st1 & ev1 & ev2 & H1 & H2 & ->) | (x & H1 & ->)]%bind_inv.
  - destruct (truthy (of_opt (arg_password a))) eqn:Hopt.
    + injection H1 as <- <- <-. destruct (arg_password a) as [p|]; [| done].
      simpl in Hopt. simpl in H2. rewrite Hopt in H2. injection H2 as <- <- <-.
      split_and!; [done | done |]. by intros _ p' [= ->].
    + unfold keyring_get_password in H1. injection H1 as <- <- <-.
      assert (Hget : Forall (λ ev, setup_event (arg_user a) ev ∧ ¬ is_odd_prompt ev)
                       [KeyringGet KEYRING_KEY (arg_user a)]).
      { repeat constructor. intros [? [=]]. }
      destruct (keyring st !! _) as [p|].
      * destruct (truthy (PStr p)).
        -- injection H2 as <- <- <-. by split_and!.
        -- apply Hprompt in H2 as [? ?]. split_and!; [done | by apply Forall_app | done].
      * apply Hprompt in H2 as [? ?]. split_and!; [done | by apply Forall_app | done].
  - destruct (truthy (of_opt (arg_password a))); [done |].
    unfold keyring_get_password in H1. done.
Qed.

Lemma bind_assoc {A B C} (m : M A) (f : A → M B) (g : B → M C) st :
  bind (bind m f) g st = bind m (λ x, bind (f x) g) st.
Proof.
  unfold bind. destruct (m st) as [[[a|x] st1] ev1]; [| done].
  destruct (f a st1) as [[[b|x] st2] ev2]; [| done].
  destruct (g b st2) as [[r st3] ev3]. by rewrite app_assoc.
Qed.

Lemma password_then_inv (a : args) {B} (k : string → M B) st r st' evs :
  bind (if truthy (of_opt (arg_password a)) then ret (arg_password a)
        else keyring_get_password KEYRING_KEY (arg_user a))
       (λ password,
          bind (match password with
                | Some p => if truthy (PStr p) then ret p else click_prompt "Password" true
                | None => click_prompt "Password" true
                end) k) st = (r, st', evs) →
  (∃ p st1 ev1 ev2,
      keyring st1 = keyring st
      ∧ Forall (λ ev, setup_event (arg_user a) ev ∧ ¬ is_odd_prompt ev) ev1
      ∧ (truthy (of_opt (arg_password a)) = true → arg_password a = Some p)
      ∧ k p st1 = (r, st', ev2) ∧ evs = ev1 ++ ev2)
  ∨ (∃ x, r = Raise x ∧ keyring st' = keyring st
          ∧ Forall (λ ev, setup_event (arg_user a) ev ∧ ¬ is_odd_prompt ev) evs).
Proof.
  rewrite <- bind_assoc.
  intros [(p & st1 & ev1 & ev2 & H1 & H2 & ->) | (x & H1 & ->)]%bind_inv.
  - apply password_steps_inv in H1 as (? & ? & Hopt). left.
    exists p, st1, ev1, ev2. split_and!; try done. intros Ht. by apply Hopt.
  - apply password_steps_inv in H1 as (? & ? & _). right. by exists x.
Qed.



(** Closes the case of a set-up phase that raised. *)
Ltac raised :=
  split_and!;
  [ congruence
  | simpl; repeat (apply Forall_app; split); done
  | by intros ? [=] ].

(** Whatever its outcome, the set-up phase leaves the keyring as it is and
    does nothing but prompt, probe and read the keyring; when it returns, its
    variables are those that the arguments and the configuration determine. *)
Lemma cli_locals_inv e a st r st1 ev1 :
  cli_locals e a st = (r, st1, ev1) →
  keyring st1 = keyring st
  ∧ Forall (setup_event (arg_user a)) ev1
  ∧ ∀ l, r = Ret l →
      ∃ config0,
        result_of (load_config e (arg_config_file a) st) = Ret config0
        ∧ (username l, hostname l) = parse_host (arg_host a) (arg_user a)
        ∧ reason l = Str.strip (Str.join " " (arg_reason a :: arg_reason_cont a))
        ∧ cacert l = configured_cacert a config0
        ∧ truthy (even_url l) = true
        ∧ (truthy (configured_even_url a config0) = true →
           even_url l = configured_even_url a config0)
        ∧ bastion_missing (ip_address e (hostname l)) (odd_host l) = false
        ∧ (bastion_missing (ip_address e (hostname l)) (configured_odd_host a config0) = false →
           odd_host l = configured_odd_host a config0)
        ∧ (truthy (of_opt (arg_password a)) = true → arg_password a = Some (password l)).
Proof.
  unfold cli_locals. destruct (parse_host _ _) as [un hn].
  intros [(c0 & s1 & v1 & w1 & Hload & H & ->) | (x & Hload & ->)]%bind_inv;
    pose proof (load_config_run e (arg_config_file a) st) as Hrun;
    rewrite Hload in Hrun; injection Hrun as Hres -> ->; [| done].
  apply bind_inv in H as [([eu c1] & s2 & v2 & w2 & Heven & H & ->) | (x & Heven & ->)];
    apply prompt_even_url_inv in Heven as (Hk2 & [Hev2 _]%Forall_and & Heu0 & Heu);
    apply (loop_setup_event (arg_user a)) in Hev2; [| raised].
  apply bind_inv in H as [([od c2] & s3 & v3 & w3 & Hodd & H & ->) | (x & Hodd & ->)];
    apply prompt_odd_host_inv in Hodd as (Hk3 & Hev3 & Hod0 & _ & Hod);
    apply (loop_setup_event (arg_user a)) in Hev3; [| raised].
  apply bind_inv in H as [([] & s4 & v4 & w4 & Hstore & H & ->) | (x & Hstore & ->)];
    apply store_config_run in Hstore as (-> & Hk4 & _); [| raised].
  apply password_then_inv in H
    as [(p & s5 & v5 & w5 & Hk5 & [Hev5 _]%Forall_and & Hpw & Hret & ->)
       | (x & -> & Hk5 & [Hev5 _]%Forall_and)]; [| raised].
  injection Hret as <- <- <-. split_and!; [congruence | |].
  { simpl. by repeat (apply Forall_app; split). }
  intros l [= <-]. exists c0. simpl. unfold result_of. rewrite Hload. simpl.
  split_and!; try done.
  - by apply (Heu eu c1).
  - intros Ht. by destruct (Heu0 Ht) as [[= -> ->] _].
  - by apply (Hod od c2).
  - intros Ht. by destruct (Hod0 Ht) as [[= -> ->] _].
Qed.

(** A run of [request_access]: the token is asked for, then the request is
    announced and posted, then the answer is reported. *)
Lemma request_access_inv e url cacert un h rsn rh lt user pw clip st r st' evs :
  request_access e url cacert un h rsn rh lt user pw clip st = (r, st', evs) →
  st' = st
  ∧ ((get_named_token e user pw = None ∧ r = Raise TokenError ∧ evs = [TokenRequest user pw])
     ∨ ∃ token msg,
         let hdrs := request_headers (dict_get token "access_token") in
         let data := request_data un h rsn rh lt in
         get_named_token e user pw = Some token
         ∧ ((requests_post e url hdrs data cacert = None ∧ r = Raise RequestException
             ∧ evs = [TokenRequest user pw; Secho msg; HttpPost url hdrs data cacert])
            ∨ ∃ status text tail,
                requests_post e url hdrs data cacert = Some (status, text)
                ∧ r = Ret status
                ∧ evs = [TokenRequest user pw; Secho msg; HttpPost url hdrs data cacert] ++ tail
                ∧ Forall (report_event None) tail
                ∧ Forall (λ ev, ∀ s u p, ev ≠ KeyringSet s u p) tail
                ∧ (status = 200 →
                   ∃ rest, tail = Secho text
                                  :: Secho "You can now access your server with the following command:"
                                  :: Secho (ssh_command_line un h rh) :: rest))).
Proof.
  unfold request_access, bind, emit, ret, raise. cbn beta.
  destruct (get_named_token e user pw) as [token|]; simpl.
  2:{ intros [= <- <- <-]. split; [done |]. by left. }
  destruct (requests_post e url _ _ cacert) as [[status text]|] eqn:Hpost; simpl.
  2:{ intros [= <- <- <-]. split; [done |]. right. eexists token, _. split; [done |].
      left. by rewrite Hpost. }
  destruct (status =? 200) eqn:Hstatus; simpl.
  - destruct clip; simpl; [destruct (pyperclip_present e); simpl |];
      intros [= <- <- <-]; (split; [done |]); right; eexists token, _; (split; [done |]);
      right; eexists status, text, _; rewrite Hpost;
      (split_and!; [done | done | done | by repeat constructor | by repeat constructor |]);
      intros _; by eexists.
  - intros [= <- <- <-]. split; [done |]. right. eexists token, _. split; [done |].
    right. eexists status, text, _. rewrite Hpost.
    split_and!; [done | done | done | by repeat constructor | by repeat constructor |].
    intros ->. done.
Qed.

(** A run of the request phase. *)
Lemma cli_request_inv e a l st r st' evs :
  cli_request e a l st = (r, st', evs) →
  let user := arg_user a in
  let first_host := (resolve_hosts (hostname l) (odd_host l)).1 in
  let remote_host := (resolve_hosts (hostname l) (odd_host l)).2 in
  let data :=
    request_data (of_opt (username l)) first_host (reason l) remote_host (arg_lifetime a) in
  ((∀ s, even_url l ≠ PStr s) ∧ r = Raise AttributeError ∧ keyring st' = keyring st ∧ evs = [])
  ∨ ∃ s, even_url l = PStr s
      ∧ ((get_named_token e user (password l) = None ∧ r = Raise TokenError
          ∧ keyring st' = keyring st ∧ evs = [TokenRequest user (password l)])
         ∨ ∃ token msg,
             let hdrs := request_headers (dict_get token "access_token") in
             let post := HttpPost (normalize_even_url s) hdrs data (cacert l) in
             get_named_token e user (password l) = Some token
             ∧ ((requests_post e (normalize_even_url s) hdrs data (cacert l) = None
                 ∧ r = Raise RequestException ∧ keyring st' = keyring st
                 ∧ evs = [TokenRequest user (password l); Secho msg; post])
                ∨ ∃ status text tail,
                    requests_post e (normalize_even_url s) hdrs data (cacert l)
                      = Some (status, text)
                    ∧ r = Ret tt
                    ∧ keyring st' =
                        (if status =? 200 then <[(KEYRING_KEY, user) := password l]> (keyring st)
                         else if status =? 403 then <[(KEYRING_KEY, user) := ""]> (keyring st)
                         else keyring st)
                    ∧ evs = [TokenRequest user (password l); Secho msg; post] ++ tail
                    ∧ Forall (report_event user) tail
                    ∧ (status = 200 →
                       ∃ rest, tail = Secho text
                                      :: Secho "You can now access your server with the following command:"
                                      :: Secho (ssh_command_line (of_opt (username l)) first_host
                                                  remote_host) :: rest))).
Proof.
  unfold cli_request. cbn zeta.
  destruct (resolve_hosts (hostname l) (odd_host l)) as [fh rh]. simpl.
  intros [(url & s1 & v1 & w1 & Hurl & H & ->) | (x & Hurl & ->)]%bind_inv.
  2:{ left. unfold ret, raise in Hurl.
      destruct (even_url l); simplify_eq; by split_and!. }
  right. unfold ret, raise in Hurl.
  destruct (even_url l) as [| | |s]; simplify_eq.
  exists s. split; [done |].
  apply bind_inv in H as [(rc & s2 & v2 & w2 & Hreq & H & ->) | (x & Hreq & ->)];
    apply request_access_inv in Hreq as [-> Hreq].
  2:{ destruct Hreq as [(Htok & [= ->] & ->) | (token & msg & Htok & Hreq)];
        [left; by split_and! | right].
      exists token, msg. split; [done |].
      destruct Hreq as [(Hpost & [= ->] & ->) | (? & ? & ? & _ & [=] & _)].
      left. by split_and!. }
  destruct Hreq as [(_ & [=] & _) | (token & msg & Htok & Hreq)]. right.
  exists token, msg. split; [done |].
  destruct Hreq as [(_ & [=] & _) | (status & text & tail & Hpost & [= ->] & -> & Htail & Hset & H200)].
  right.
  assert (Htail' : Forall (report_event (arg_user a)) tail).
  { eapply Forall_impl; [apply Forall_and; split; [exact Htail | exact Hset] |].
    intros ev [Hev Hne]. destruct ev; try done. by destruct (Hne service user password0). }
  destruct (status =? 200) eqn:Hs200; [| destruct (status =? 403) eqn:Hs403].
  - unfold keyring_set_password in H. injection H as <- <- <-.
    exists status, text, (tail ++ [KeyringSet KEYRING_KEY (arg_user a) (password l)]).
    split_and!; [done | done | by rewrite Hs200 | by simpl | |].
    + apply Forall_app. split; [done |]. by repeat constructor.
    + intros Hst. destruct (H200 Hst) as [rest ->]. by eexists.
  - unfold bind, emit, keyring_set_password in H. simpl in H. injection H as <- <- <-.
    eexists status, text, (tail ++ _).
    split_and!; [done | done | by rewrite Hs200, Hs403 | by simpl | |].
    + apply Forall_app. split; [done |]. by repeat constructor.
    + intros ->. done.
  - injection H as <- <- <-. exists status, text, tail.
    split_and!; [done | done | by rewrite Hs200, Hs403 | by rewrite app_nil_r | done |].
    intros ->. done.
Qed.

(** * Runs of [cli] *)

Lemma cli_inv e a st r st' evs :
  cli e a st = (r, st', evs) →
  (∃ x, cli_locals e a st = (Raise x, st', evs) ∧ r = Raise x)
  ∨ (∃ l st1 ev1 ev2,
        cli_locals e a st = (Ret l, st1, ev1)
        ∧ cli_request e a l st1 = (r, st', ev2) ∧ evs = ev1 ++ ev2).
Proof.
  unfold cli. intros [(l & st1 & ev1 & ev2 & ? & ? & ?) | (x & ? & ?)]%bind_inv.
  - right. by exists l, st1, ev1, ev2.
  - left. by exists x.
Qed.

Lemma cli_run e a st l st1 ev1 :
  cli_locals e a st = (Ret l, st1, ev1) →
  cli e a st = (result_of (cli_request e a l st1), state_of (cli_request e a l st1),
                ev1 ++ events_of (cli_request e a l st1)).
Proof. intros H. unfold cli. by rewrite (bind_ret_run _ _ _ _ _ _ H). Qed.

(** A run in which a request is posted: the set-up phase has returned, the
    token was granted, and the request is built from the variables of the
    set-up phase; what follows depends on the answer of the service. *)
Lemma cli_post_inv e a st url hdrs data verify :
  HttpPost url hdrs data verify ∈ events_of (cli e a st) →
  ∃ l st1 ev1 s token msg tail,
    let user := arg_user a in
    let first_host := (resolve_hosts (hostname l) (odd_host l)).1 in
    let remote_host := (resolve_hosts (hostname l) (odd_host l)).2 in
    cli_locals e a st = (Ret l, st1, ev1)
    ∧ even_url l = PStr s
    ∧ get_named_token e user (password l) = Some token
    ∧ url = normalize_even_url s
    ∧ hdrs = request_headers (dict_get token "access_token")
    ∧ data = request_data (of_opt (username l)) first_host (reason l) remote_host
               (arg_lifetime a)
    ∧ verify = cacert l
    ∧ events_of (cli e a st)
      = ev1 ++ [TokenRequest user (password l); Secho msg; HttpPost url hdrs data verify] ++ tail
    ∧ Forall (setup_event user) ev1
    ∧ Forall (report_event user) tail
    ∧ match requests_post e url hdrs data verify with
      | None =>
          result_of (cli e a st) = Raise RequestException
          ∧ keyring (state_of (cli e a st)) = keyring st ∧ tail = []
      | Some (status, text) =>
          result_of (cli e a st) = Ret tt
          ∧ keyring (state_of (cli e a st)) =
              (if status =? 200 then <[(KEYRING_KEY, user) := password l]> (keyring st)
               else if status =? 403 then <[(KEYRING_KEY, user) := ""]> (keyring st)
               else keyring st)
          ∧ (status = 200 →
             ∃ rest, tail = Secho text
                            :: Secho "You can now access your server with the following command:"
                            :: Secho (ssh_command_line (of_opt (username l)) first_host
                                        remote_host) :: rest)
      end.
Proof.
  destruct (cli e a st) as [[r st'] evs] eqn:Hcli. unfold events_of, result_of, state_of. simpl.
  intros Hin%list_elem_of_In.
  apply cli_inv in Hcli as [(x & Hloc & ->) | (l & st1 & ev1 & ev2 & Hloc & Hreq & ->)].
  { apply cli_locals_inv in Hloc as (_ & Hev & _).
    rewrite Forall_forall in Hev. by destruct (Hev _ (proj2 (list_elem_of_In _ _) Hin)). }
  pose proof (cli_locals_inv _ _ _ _ _ _ Hloc) as (Hk & Hev & _).
  assert (Hin2 : In (HttpPost url hdrs data verify) ev2).
  { apply in_app_or in Hin as [Hin | Hin]; [| done].
    rewrite Forall_forall in Hev. by destruct (Hev _ (proj2 (list_elem_of_In _ _) Hin)). }
  apply cli_request_inv in Hreq as [(_ & _ & _ & ->) | (s & Hs & Hreq)]; [done |].
  destruct Hreq as [(_ & _ & _ & ->) | (token & msg & Htok & Hreq)].
  { by destruct Hin2 as [[=] | []]. }
  assert (Hpost : ∀ tail, Forall (report_event (arg_user a)) tail →
            In (HttpPost url hdrs data verify)
               ([TokenRequest (arg_user a) (password l); Secho msg;
                 HttpPost (normalize_even_url s)
                   (request_headers (dict_get token "access_token"))
                   (request_data (of_opt (username l))
                      (resolve_hosts (hostname l) (odd_host l)).1 (reason l)
                      (resolve_hosts (hostname l) (odd_host l)).2 (arg_lifetime a))
                   (cacert l)] ++ tail) →
            url = normalize_even_url s
            ∧ hdrs = request_headers (dict_get token "access_token")
            ∧ data = request_data (of_opt (username l))
                       (resolve_hosts (hostname l) (odd_host l)).1 (reason l)
                       (resolve_hosts (hostname l) (odd_host l)).2 (arg_lifetime a)
            ∧ verify = cacert l).
  { intros tail Htail [[=] | [[=] | [[= -> -> -> ->] | Hin3]]]; [done |].
    rewrite Forall_forall in Htail. by destruct (Htail _ (proj2 (list_elem_of_In _ _) Hin3)). }
  destruct Hreq as [(Hnone & -> & Hk' & ->)
                   | (status & text & tail & Hsome & -> & Hk' & -> & Htail & H200)].
  - destruct (Hpost [] (Forall_nil_2 _) Hin2) as (-> & -> & -> & ->).
    exists l, st1, ev1, s, token, msg, []. rewrite Hnone.
    split_and!; try done. congruence.
  - destruct (Hpost tail Htail Hin2) as (-> & -> & -> & ->).
    exists l, st1, ev1, s, token, msg, tail. rewrite Hsome.
    split_and!; try done. by rewrite Hk', Hk.
Qed.

(** * The claims *)

(** C1.  Once the service has answered the request, the keyring is updated
    by the status of the answer: on 200 the password that was used to ask
    for the token is stored under the key of the user, on 403 the empty
    string is stored there, and on any other status the keyring is as it
    was before the run. *)
Theorem C1_keyring_follows_status e a st url hdrs data verify status text user password :
  HttpPost url hdrs data verify ∈ events_of (cli e a st) →
  requests_post e url hdrs data verify = Some (status, text) →
  TokenRequest user password ∈ events_of (cli e a st) →
  result_of (cli e a st) = Ret tt
  ∧ user = arg_user a
  ∧ keyring (state_of (cli e a st)) =
      (if status =? 200 then <[("piu", user) := password]> (keyring st)
       else if status =? 403 then <[("piu", user) := ""]> (keyring st)
       else keyring st).
Proof.
  intros Hpost Hanswer Htoken.
  apply cli_post_inv in Hpost
    as (l & st1 & ev1 & s & token & msg & tail & _ & _ & _ & _ & _ & _ & _
        & Hevs & Hev1 & Htail & Hrun).
  rewrite Hanswer in Hrun. destruct Hrun as (Hres & Hkey & _).
  rewrite Hevs in Htoken. rewrite Forall_forall in Hev1, Htail.
  apply elem_of_app in Htoken as [Hin | Hin]; [by destruct (Hev1 _ Hin) |].
  apply elem_of_app in Hin as [Hin | Hin]; [| by destruct (Htail _ Hin)].
  repeat (apply elem_of_cons in Hin as [Hin | Hin]; try discriminate Hin).
  - injection Hin as -> ->. done.
  - by apply elem_of_nil in Hin.
Qed.

Lemma C1_keyring_follows_status_witness :
  keyring (state_of (cli (sample_env 403) sample_args (sample_state ∅ [])))
  = <[("piu", Some "alice") := ""]> ∅.
Proof.
  refine (proj2 (proj2 (C1_keyring_follows_status (sample_env 403) sample_args
                          (sample_state ∅ []) "https://x.example/access-requests"
                          (request_headers (PStr "t0k3n"))
                          [("username", PStr "deploy"); ("hostname", PStr "my-host");
                           ("reason", PStr "testing")]
                          (PBool true) 403 "ok" (Some "alice") "s3cret" _ _ _))).
  - apply list_elem_of_In. vm_compute. tauto.
  - reflexivity.
  - apply list_elem_of_In. vm_compute. tauto.
Defined.

(** The keys of the request, in order. *)
Lemma request_data_keys un h rsn rh lt :
  (request_data un h rsn rh lt).*1 =
    ["username"; "hostname"; "reason"]
    ++ (if truthy rh then ["remote_host"] else [])
    ++ match lt with
       | Some n => if truthy (PInt n) then ["lifetime_minutes"] else []
       | None => []
       end.
Proof.
  unfold request_data. destruct (truthy rh), lt as [n|]; try done.
  all: by destruct (truthy (PInt n)).
Qed.

Lemma request_data_no_remote un h rsn lt : "remote_host" ∉ (request_data un h rsn PNone lt).*1.
Proof.
  rewrite request_data_keys. simpl. destruct lt as [n|]; [destruct (negb _) |];
    intros Hin%list_elem_of_In; simpl in Hin; intuition discriminate.
Qed.

(** C2.  Routing starts from [first_host = hostname] and
    [remote_host = hostname], and a configured bastion replaces
    [first_host].  When the two are then equal -- no bastion is configured,
    or the bastion is the target -- [remote_host] is cleared, and the request
    that is posted has no [remote_host] field. *)
Theorem C2_same_host_clears_remote e a st l st1 ev1 url hdrs data verify :
  cli_locals e a st = (Ret l, st1, ev1) →
  HttpPost url hdrs data verify ∈ events_of (cli e a st) →
  let first_host := if truthy (odd_host l) then odd_host l else PStr (hostname l) in
  let remote_host := PStr (hostname l) in
  py_eqb first_host remote_host = true →
  (truthy (odd_host l) = false ∨ odd_host l = PStr (hostname l))
  ∧ resolve_hosts (hostname l) (odd_host l) = (first_host, PNone)
  ∧ data = request_data (of_opt (username l)) first_host (reason l) PNone (arg_lifetime a)
  ∧ "remote_host" ∉ data.*1.
Proof.
  intros Hloc Hpost first_host remote_host Heq.
  apply cli_post_inv in Hpost
    as (l' & st1' & ev1' & s & token & msg & tail & Hloc' & _ & _ & _ & _ & Hdata & _).
  rewrite Hloc in Hloc'. injection Hloc' as <- <- <-.
  assert (Hres : resolve_hosts (hostname l) (odd_host l) = (first_host, PNone)).
  { unfold resolve_hosts. fold first_host. fold remote_host. by rewrite Heq. }
  rewrite Hres in Hdata. simpl in Hdata. subst data.
  split_and!; [| done | done | apply request_data_no_remote].
  subst first_host remote_host. destruct (truthy (odd_host l)); [right | by left].
  destruct (odd_host l); try done. simpl in Heq. by apply eqb_true in Heq as ->.
Qed.

Lemma C2_same_host_clears_remote_witness :
  HttpPost "https://x.example/access-requests" (request_headers (PStr "t0k3n"))
    [("username", PStr "deploy"); ("hostname", PStr "my-host"); ("reason", PStr "testing")]
    (PBool true)
  ∈ events_of (cli (sample_env 200) (with_odd_host (Some "my-host") sample_args)
                 (sample_state ∅ []))
  ∧ "remote_host" ∉ ["username"; "hostname"; "reason"].
Proof.
  assert (Hpost :
    HttpPost "https://x.example/access-requests" (request_headers (PStr "t0k3n"))
      [("username", PStr "deploy"); ("hostname", PStr "my-host"); ("reason", PStr "testing")]
      (PBool true)
    ∈ events_of (cli (sample_env 200) (with_odd_host (Some "my-host") sample_args)
                   (sample_state ∅ []))).
  { apply list_elem_of_In. vm_compute. tauto. }
  split; [exact Hpost |].
  refine (proj2 (proj2 (proj2
    (C2_same_host_clears_remote (sample_env 200) (with_odd_host (Some "my-host") sample_args)
       (sample_state ∅ [])
       {| username := Some "deploy"; hostname := "my-host"; reason := "testing";
          cacert := PBool true; even_url := PStr "https://x.example/";
          odd_host := PStr "my-host"; config := ∅; password := "s3cret" |}
       (sample_state {["piu.yaml" := RegularFile ""]} []) []
       _ _ _ _ _ Hpost _)))).
  - vm_compute. reflexivity.
  - reflexivity.
Defined.

(** C3.  When a bastion is configured, differs from the target, and the
    name of the target begins with ["odd-"], the target becomes the first
    hop and [remote_host] is cleared: the request has the target as its
    [hostname] and no [remote_host] field, and the command shown after a
    success is a single [ssh] to the target. *)
Theorem C3_odd_target_is_first_hop e a st l st1 ev1 url hdrs data verify :
  cli_locals e a st = (Ret l, st1, ev1) →
  HttpPost url hdrs data verify ∈ events_of (cli e a st) →
  truthy (odd_host l) = true →
  py_eqb (odd_host l) (PStr (hostname l)) = false →
  Str.startswith "odd-" (hostname l) = true →
  resolve_hosts (hostname l) (odd_host l) = (PStr (hostname l), PNone)
  ∧ data = request_data (of_opt (username l)) (PStr (hostname l)) (reason l) PNone
             (arg_lifetime a)
  ∧ ("remote_host" ∉ data.*1)
  ∧ ∀ text,
      requests_post e url hdrs data verify = Some (200, text) →
      ∃ before after,
        events_of (cli e a st) =
          before
          ++ ([HttpPost url hdrs data verify;
               Secho text;
               Secho "You can now access your server with the following command:";
               Secho ("ssh -tA " +:+ py_str (of_opt (username l)) +:+ "@" +:+ hostname l +:+ " ")]
              ++ after).
Proof.
  intros Hloc Hpost Hodd Hne Hprefix.
  apply cli_post_inv in Hpost
    as (l' & st1' & ev1' & s & token & msg & tail & Hloc' & _ & _ & _ & _ & Hdata & _
        & Hevs & _ & _ & Hrun).
  rewrite Hloc in Hloc'. injection Hloc' as <- <- <-.
  assert (Hres : resolve_hosts (hostname l) (odd_host l) = (PStr (hostname l), PNone)).
  { unfold resolve_hosts. by rewrite Hodd, Hne, Hprefix. }
  rewrite Hres in Hdata, Hrun. simpl in Hdata, Hrun. subst data.
  split_and!; [done | done | apply request_data_no_remote |].
  intros text Hanswer. rewrite Hanswer in Hrun. destruct Hrun as (_ & _ & Htail).
  destruct (Htail eq_refl) as [rest ->].
  exists (ev1 ++ [TokenRequest (arg_user a) (password l); Secho msg]), rest.
  rewrite Hevs. unfold ssh_command_line. simpl. rewrite append_nil_r.
  by rewrite <- app_assoc.
Qed.


Lemma C3_odd_target_is_first_hop_witness :
  Secho "ssh -tA deploy@odd-target " ∈
    events_of (cli (sample_env 200)
                 (with_odd_host (Some "odd-eu.example.org") (with_host "deploy@odd-target" sample_args))
                 (sample_state ∅ [])).
Proof.
  assert (Hpost :
    HttpPost "https://x.example/access-requests" (request_headers (PStr "t0k3n"))
      [("username", PStr "deploy"); ("hostname", PStr "odd-target"); ("reason", PStr "testing")]
      (PBool true)
    ∈ events_of (cli (sample_env 200)
                   (with_odd_host (Some "odd-eu.example.org")
                      (with_host "deploy@odd-target" sample_args))
                   (sample_state ∅ []))).
  { apply list_elem_of_In. vm_compute. tauto. }
  assert (Hloc :
    cli_locals (sample_env 200)
      (with_odd_host (Some "odd-eu.example.org") (with_host "deploy@odd-target" sample_args))
      (sample_state ∅ [])
    = (Ret {| username := Some "deploy"; hostname := "odd-target"; reason := "testing";
              cacert := PBool true; even_url := PStr "https://x.example/";
              odd_host := PStr "odd-eu.example.org"; config := ∅; password := "s3cret" |},
       sample_state {["piu.yaml" := RegularFile ""]} [], [])).
  { vm_compute. reflexivity. }
  pose proof (C3_odd_target_is_first_hop _ _ _ _ _ _ _ _ _ _ Hloc Hpost eq_refl eq_refl eq_refl)
    as (_ & _ & _ & Hcmd).
  destruct (Hcmd "ok" eq_refl) as (before & after & Hevs).
  rewrite Hevs. rewrite !elem_of_app, !elem_of_cons. auto 10.
Defined.

Lemma bastion_missing_spec ip odd :
  bastion_missing ip odd = true
  ↔ (∃ addr, ip = Some addr ∧ ip_in addr STUPS_CIDR = true) ∧ truthy odd = false.
Proof.
  unfold bastion_missing. destruct ip as [addr|].
  - rewrite andb_true_iff, negb_true_iff. split.
    + intros [? ?]. eauto.
    + by intros [(? & [= <-] & ?) ?].
  - split; [done | by intros [(? & [=] & _) _]].
Qed.

Lemma cli_request_no_odd_prompt e a l st r st' evs :
  cli_request e a l st = (r, st', evs) → Forall (λ ev, ¬ is_odd_prompt ev) evs.
Proof.
  assert (Hreport : ∀ tail, Forall (report_event (arg_user a)) tail →
                            Forall (λ ev, ¬ is_odd_prompt ev) tail).
  { intros tail Htail. eapply Forall_impl; [done |]. by intros [] ? [? [=]]. }
  intros [(_ & _ & _ & ->) | (s & _ & Hreq)]%cli_request_inv; [done |].
  destruct Hreq as [(_ & _ & _ & ->) | (token & msg & _ & Hreq)].
  { repeat constructor. intros [? [=]]. }
  destruct Hreq as [(_ & _ & _ & ->) | (status & text & tail & _ & _ & _ & -> & Htail & _)].
  - repeat constructor; intros [? [=]].
  - apply Forall_app. split; [| by apply Hreport].
    repeat constructor; intros [? [=]].
Qed.

(** The bastion prompt among the events of the set-up phase, once the
    configuration is loaded and the service URL is known. *)
Lemma cli_locals_odd_prompt e a st r st1 ev1 config0 eu c1 :
  cli_locals e a st = (r, st1, ev1) →
  result_of (load_config e (arg_config_file a) st) = Ret config0 →
  result_of (prompt_even_url e (configured_even_url a config0) config0 st) = Ret (eu, c1) →
  Exists is_odd_prompt ev1
  ↔ bastion_missing (ip_address e (parse_host (arg_host a) (arg_user a)).2)
      (configured_odd_host a config0) = true.
Proof.
  unfold cli_locals. destruct (parse_host _ _) as [un hn]. simpl.
  intros H Hload0 Heven0. unfold result_of in Hload0, Heven0.
  apply bind_inv in H as [(c0 & s1 & v1 & w1 & Hload & H & ->) | (x & Hload & ->)];
    pose proof (load_config_run e (arg_config_file a) st) as Hrun;
    rewrite Hload in Hrun; injection Hrun as Hres -> ->;
    rewrite Hload in Hload0; simpl in Hload0; [| done].
  injection Hload0 as ->. simpl.
  fold (configured_even_url a config0) in H. fold (configured_odd_host a config0) in H.
  apply bind_inv in H as [([eu' c1'] & s2 & v2 & w2 & Heven & H & ->) | (x & Heven & ->)];
    rewrite Heven in Heven0; simpl in Heven0; [| done].
  apply prompt_even_url_inv in Heven as (_ & [_ Hev2]%Forall_and & _).
  rewrite Exists_app.
  assert (Hno2 : ¬ Exists is_odd_prompt v2).
  { intros Hex. apply Exists_exists in Hex as (ev & Hin & Hodd).
    rewrite Forall_forall in Hev2. by apply (Hev2 ev). }
  assert (Hw2 : Exists is_odd_prompt w2
                ↔ bastion_missing (ip_address e hn) (configured_odd_host a config0) = true);
    [| tauto].
  destruct (bastion_missing (ip_address e hn) (configured_odd_host a config0)) eqn:Hmiss.
  - assert (Hfirst : ∃ answer rest, w2 = Prompt ODD_PROMPT false answer :: rest).
    { apply bind_inv in H as [([od c2] & s3 & v3 & w3 & Hodd & H & ->) | (x & Hodd & ->)];
        apply prompt_odd_host_inv in Hodd as (_ & _ & _ & Hstart & _);
        destruct (Hstart Hmiss) as (answer & rest & ->); by eexists _, _. }
    split; [done | intros _].
    destruct Hfirst as (answer & rest & ->). apply Exists_cons_hd. by exists answer.
  - split; [| done]. intros Hex. exfalso.
    apply bind_inv in H as [([od c2] & s3 & v3 & w3 & Hodd & H & ->) | (x & Hodd & ->)];
      apply prompt_odd_host_inv in Hodd as (_ & _ & Himm & _);
      destruct (Himm Hmiss) as [[=] Hnil].
    subst. simpl in Hex.
    apply bind_inv in H as [([] & s4 & v4 & w4 & Hstore & H & ->) | (x & Hstore & ->)];
      apply store_config_run in Hstore as (-> & _ & _); [| by apply Exists_nil in Hex].
    simpl in Hex.
    apply password_then_inv in H
      as [(p & s5 & v5 & w5 & _ & [_ Hev5]%Forall_and & _ & Hret & ->)
         | (x & -> & _ & [_ Hev5]%Forall_and)].
    + injection Hret as <- <- <-. rewrite app_nil_r in Hex.
      apply Exists_exists in Hex as (ev & Hin & Hodd).
      rewrite Forall_forall in Hev5. by apply (Hev5 ev).
    + apply Exists_exists in Hex as (ev & Hin & Hodd).
      rewrite Forall_forall in Hev5. by apply (Hev5 ev).
Qed.

(** C4.  With the configuration loaded and the service URL known, the run
    prompts for the bastion exactly when the host name parses as an IP
    address inside 172.31.0.0/16 and no bastion is configured.  A host name
    that does not parse as an address never leads to the prompt, and an
    empty [--odd-host] counts as none: the value of the configuration file
    is used in its place. *)
Theorem C4_bastion_prompt_iff e a st config0 eu c1 :
  result_of (load_config e (arg_config_file a) st) = Ret config0 →
  result_of (prompt_even_url e (configured_even_url a config0) config0 st) = Ret (eu, c1) →
  let hostname := (parse_host (arg_host a) (arg_user a)).2 in
  (Exists is_odd_prompt (events_of (cli e a st))
   ↔ (∃ ip, ip_address e hostname = Some ip ∧ ip_in ip STUPS_CIDR = true)
     ∧ truthy (configured_odd_host a config0) = false)
  ∧ (ip_address e hostname = None → ¬ Exists is_odd_prompt (events_of (cli e a st)))
  ∧ (arg_odd_host a = Some "" → configured_odd_host a config0 = dict_get config0 "odd_host").
Proof.
  intros Hload Heven hostname.
  assert (Hiff : Exists is_odd_prompt (events_of (cli e a st))
                 ↔ bastion_missing (ip_address e hostname) (configured_odd_host a config0) = true).
  { destruct (cli e a st) as [[r st'] evs] eqn:Hcli. unfold events_of. simpl.
    apply cli_inv in Hcli as [(x & Hloc & ->) | (l & st1 & ev1 & ev2 & Hloc & Hreq & ->)].
    - by apply (cli_locals_odd_prompt _ _ _ _ _ _ _ _ _ Hloc Hload Heven).
    - rewrite Exists_app, (cli_locals_odd_prompt _ _ _ _ _ _ _ _ _ Hloc Hload Heven).
      apply cli_request_no_odd_prompt in Hreq.
      split; [intros [? | Hex] | by left]; [done |].
      apply Exists_exists in Hex as (ev & Hin & Hodd).
      rewrite Forall_forall in Hreq. by destruct (Hreq ev). }
  split_and!.
  - by rewrite Hiff, bastion_missing_spec.
  - intros Hnone. rewrite Hiff, Hnone. done.
  - intros Hempty. unfold configured_odd_host. by rewrite Hempty.
Qed.

Lemma C4_bastion_prompt_iff_witness :
  Exists is_odd_prompt
    (events_of (cli (sample_env 200) (with_host "deploy@172.31.5.7" sample_args)
                  (sample_state ∅ ["odd-eu.example.org"]))).
Proof.
  assert (Hload :
    result_of (load_config (sample_env 200)
                 (arg_config_file (with_host "deploy@172.31.5.7" sample_args))
                 (sample_state ∅ ["odd-eu.example.org"]))
    = Ret ∅).
  { vm_compute. reflexivity. }
  assert (Heven :
    result_of (prompt_even_url (sample_env 200)
                 (configured_even_url (with_host "deploy@172.31.5.7" sample_args) ∅) ∅
                 (sample_state ∅ ["odd-eu.example.org"]))
    = Ret (PStr "https://x.example/", ∅)).
  { vm_compute. reflexivity. }
  apply (proj1 (C4_bastion_prompt_iff _ _ _ _ _ _ Hload Heven)).
  split; [| reflexivity].
  exists (IPv4Address 2887714055). split; reflexivity.
Defined.

Lemma post_urls_app evs1 evs2 : post_urls (evs1 ++ evs2) = post_urls evs1 ++ post_urls evs2.
Proof. apply omap_app. Qed.

Lemma post_urls_setup user evs : Forall (setup_event user) evs → post_urls evs = [].
Proof. induction 1 as [|[] evs Hev _ IH]; simpl in *; done. Qed.

Lemma post_urls_report user evs : Forall (report_event user) evs → post_urls evs = [].
Proof. induction 1 as [|[] evs Hev _ IH]; simpl in *; done. Qed.

(** What the normalisation does to a URL that lacks the path. *)
Lemma normalize_even_url_strips s :
  Str.endswith "/access-requests" s = false →
  ∃ stem slashes,
    s = stem +:+ slashes
    ∧ (∀ c, Str.contains c slashes = true → c = "/"%char)
    ∧ Str.endswith "/" stem = false
    ∧ normalize_even_url s = stem +:+ "/access-requests".
Proof.
  intros Hends. destruct (rstrip_decompose (Str.ascii_eqb "/") s) as (slashes & Hs & Hall).
  exists (Str.rstrip (Str.ascii_eqb "/") s), slashes. split_and!.
  - done.
  - intros c Hc. symmetry. apply ascii_eqb_true. by apply (rstrip_empty_all _ slashes).
  - apply not_true_is_false. intros [p Hp]%endswith_spec.
    by apply rstrip_last in Hp.
  - unfold normalize_even_url. by rewrite Hends.
Qed.

(** C5.  The request is posted to the normalised URL, once: a URL that ends
    with [/access-requests] is used as it is, and any other loses its
    trailing slashes and gets [/access-requests] appended.  Given
    [https://x.example/] or [https://x.example/access-requests], the one
    request goes to [https://x.example/access-requests]. *)
Theorem C5_post_url_normalized e a st l st1 ev1 s :
  cli_locals e a st = (Ret l, st1, ev1) →
  even_url l = PStr s →
  is_Some (get_named_token e (arg_user a) (password l)) →
  post_urls (events_of (cli e a st)) = [normalize_even_url s]
  ∧ (Str.endswith "/access-requests" s = true → normalize_even_url s = s)
  ∧ (Str.endswith "/access-requests" s = false →
     ∃ stem slashes,
       s = stem +:+ slashes
       ∧ (∀ c, Str.contains c slashes = true → c = "/"%char)
       ∧ Str.endswith "/" stem = false
       ∧ normalize_even_url s = stem +:+ "/access-requests")
  ∧ (arg_even_url a = Some "https://x.example/"
     ∨ arg_even_url a = Some "https://x.example/access-requests" →
     post_urls (events_of (cli e a st)) = ["https://x.example/access-requests"]).
Proof.
  intros Hloc Hs [token Htok].
  assert (Hposts : post_urls (events_of (cli e a st)) = [normalize_even_url s]).
  { rewrite (cli_run _ _ _ _ _ _ Hloc). unfold events_of at 1. simpl.
    destruct (cli_request e a l st1) as [[r st'] ev2] eqn:Hreq. unfold events_of. simpl.
    apply cli_locals_inv in Hloc as (_ & Hev1 & _).
    rewrite post_urls_app, (post_urls_setup _ _ Hev1). simpl.
    apply cli_request_inv in Hreq as [(Hno & _) | (s' & Hs' & Hreq)];
      [by destruct (Hno s) |].
    rewrite Hs in Hs'. injection Hs' as <-.
    destruct Hreq as [(Hnone & _) | (token' & msg & _ & Hreq)]; [congruence |].
    destruct Hreq as [(_ & _ & _ & ->) | (status & text & tail & _ & _ & _ & -> & Htail & _)];
      [done |].
    rewrite post_urls_app, (post_urls_report _ _ Htail). done. }
  split_and!; [done | | apply normalize_even_url_strips |].
  - intros Hends. unfold normalize_even_url. by rewrite Hends.
  - intros Hgiven. rewrite Hposts.
    apply cli_locals_inv in Hloc as (_ & _ & Hl).
    destruct (Hl l eq_refl) as (config0 & _ & _ & _ & _ & _ & Hgiven_url & _).
    unfold configured_even_url in Hgiven_url.
    destruct Hgiven as [Hu | Hu]; rewrite Hu in Hgiven_url; simpl in Hgiven_url;
      rewrite (Hgiven_url eq_refl) in Hs; by injection Hs as <-.
Qed.

Lemma C5_post_url_normalized_witness :
  post_urls (events_of (cli (sample_env 200) sample_args (sample_state ∅ [])))
  = ["https://x.example/access-requests"]
  ∧ post_urls (events_of (cli (sample_env 200)
                            (with_even_url (Some "https://x.example/access-requests") sample_args)
                            (sample_state ∅ [])))
    = ["https://x.example/access-requests"].
Proof.
  assert (Hloc1 :
    cli_locals (sample_env 200) sample_args (sample_state ∅ [])
    = (Ret {| username := Some "deploy"; hostname := "my-host"; reason := "testing";
              cacert := PBool true; even_url := PStr "https://x.example/";
              odd_host := PNone; config := ∅; password := "s3cret" |},
       sample_state {["piu.yaml" := RegularFile ""]} [], [])).
  { vm_compute. reflexivity. }
  assert (Hloc2 :
    cli_locals (sample_env 200)
      (with_even_url (Some "https://x.example/access-requests") sample_args) (sample_state ∅ [])
    = (Ret {| username := Some "deploy"; hostname := "my-host"; reason := "testing";
              cacert := PBool true; even_url := PStr "https://x.example/access-requests";
              odd_host := PNone; config := ∅; password := "s3cret" |},
       sample_state {["piu.yaml" := RegularFile ""]} [], [])).
  { vm_compute. reflexivity. }
  split.
  - apply (proj2 (proj2 (proj2
      (C5_post_url_normalized _ _ _ _ _ _ _ Hloc1 eq_refl (mk_is_Some _ _ eq_refl))))).
    by left.
  - apply (proj2 (proj2 (proj2
      (C5_post_url_normalized _ _ _ _ _ _ _ Hloc2 eq_refl (mk_is_Some _ _ eq_refl))))).
    by right.
Defined.

(** The request: three fields, then the optional ones. *)
Lemma request_data_eq un h rsn rh lt :
  request_data un h rsn rh lt =
    [("username", un); ("hostname", h); ("reason", PStr rsn)]
    ++ (if truthy rh then [("remote_host", rh)] else [])
    ++ match lt with
       | Some n => if truthy (PInt n) then [("lifetime_minutes", PInt n)] else []
       | None => []
       end.
Proof.
  unfold request_data. destruct (truthy rh), lt as [n|]; try done.
  all: by destruct (truthy (PInt n)).
Qed.

Lemma request_data_has_remote un h rsn rh lt :
  "remote_host" ∈ (request_data un h rsn rh lt).*1 ↔ truthy rh = true.
Proof.
  rewrite request_data_keys, list_elem_of_In.
  destruct (truthy rh), lt as [n|]; [destruct (truthy (PInt n)) | | destruct (truthy (PInt n)) |];
    simpl; intuition (try discriminate).
Qed.

Lemma request_data_has_lifetime un h rsn rh lt :
  "lifetime_minutes" ∈ (request_data un h rsn rh lt).*1 ↔ ∃ n, lt = Some n ∧ n ≠ 0.
Proof.
  rewrite request_data_keys, list_elem_of_In.
  destruct (truthy rh), lt as [n|]; simpl;
    try (destruct (n =? 0) eqn:Hn; [apply Z.eqb_eq in Hn | apply Z.eqb_neq in Hn]; simpl);
    (split; [intros H | intros (m & [= <-] & ?)]); try done;
    try (repeat (destruct H as [H | H]; try discriminate H); by eauto);
    tauto.
Qed.

(** What [resolve_hosts] returns as the remote host is [None] or the target. *)
Lemma resolve_hosts_remote hostname odd :
  (resolve_hosts hostname odd).2 = PNone ∨ (resolve_hosts hostname odd).2 = PStr hostname.
Proof.
  unfold resolve_hosts. destruct (py_eqb _ _); [by left |].
  destruct (Str.startswith _ _); [by left | by right].
Qed.

(** C6.  The body of the request has the fields [username], [hostname] and
    [reason], then [remote_host] if and only if a remote host was resolved,
    then [lifetime_minutes] only if a lifetime was given.  For
    [deploy@my-host] with the reason [testing], no lifetime and no bastion
    configured, the body is
    [{username: deploy, hostname: my-host, reason: testing}]. *)
Theorem C6_request_body e a st l st1 ev1 url hdrs data verify config0 :
  cli_locals e a st = (Ret l, st1, ev1) →
  HttpPost url hdrs data verify ∈ events_of (cli e a st) →
  result_of (load_config e (arg_config_file a) st) = Ret config0 →
  let first_host := (resolve_hosts (hostname l) (odd_host l)).1 in
  let remote_host := (resolve_hosts (hostname l) (odd_host l)).2 in
  data = [("username", of_opt (username l)); ("hostname", first_host);
          ("reason", PStr (reason l))]
         ++ (if truthy remote_host then [("remote_host", remote_host)] else [])
         ++ match arg_lifetime a with
            | Some n => if truthy (PInt n) then [("lifetime_minutes", PInt n)] else []
            | None => []
            end
  ∧ ("remote_host" ∈ data.*1 ↔ remote_host = PStr (hostname l) ∧ hostname l ≠ "")
  ∧ ("lifetime_minutes" ∈ data.*1 → ∃ n, arg_lifetime a = Some n)
  ∧ (arg_host a = "deploy@my-host" → arg_reason a = "testing" → arg_reason_cont a = [] →
     arg_lifetime a = None → truthy (configured_odd_host a config0) = false →
     data = [("username", PStr "deploy"); ("hostname", PStr "my-host");
             ("reason", PStr "testing")]).
Proof.
  intros Hloc Hpost Hload first_host remote_host.
  apply cli_post_inv in Hpost
    as (l' & st1' & ev1' & s & token & msg & tail & Hloc' & _ & _ & _ & _ & Hdata & _).
  rewrite Hloc in Hloc'. injection Hloc' as <- <- <-.
  fold first_host remote_host in Hdata.
  split_and!; [by rewrite <- request_data_eq | | |].
  - subst data. rewrite request_data_has_remote.
    destruct (resolve_hosts_remote (hostname l) (odd_host l)) as [Hrh | Hrh];
      fold remote_host in Hrh; rewrite Hrh; simpl.
    + split; [done | by intros [[=] _]].
    + rewrite negb_true_iff, eqb_false. split; [done | by intros [_ ?]].
  - subst data. rewrite request_data_has_lifetime. intros (n & ? & _). by exists n.
  - intros Hhost Hreason Hcont Hlife Hodd.
    apply cli_locals_inv in Hloc as (_ & _ & Hl).
    destruct (Hl l eq_refl) as (cfg & Hcfg & Hparse & Hrsn & _ & _ & _ & _ & Hodd_l & _).
    rewrite Hload in Hcfg. injection Hcfg as <-.
    rewrite Hhost in Hparse. injection Hparse as Hun Hhn.
    assert (Hod : odd_host l = configured_odd_host a config0).
    { apply Hodd_l. rewrite Hhn. unfold ip_address. simpl.
      by destruct (ipv6_from_string e "my-host"). }
    subst data first_host remote_host.
    rewrite Hun, Hhn, Hrsn, Hreason, Hcont, Hlife, Hod.
    unfold resolve_hosts. rewrite Hodd. done.
Qed.

Lemma C6_request_body_witness :
  ∃ url hdrs verify,
    HttpPost url hdrs
      [("username", PStr "deploy"); ("hostname", PStr "my-host"); ("reason", PStr "testing")]
      verify
    ∈ events_of (cli (sample_env 200) sample_args (sample_state ∅ [])).
Proof.
  assert (Hloc :
    cli_locals (sample_env 200) sample_args (sample_state ∅ [])
    = (Ret {| username := Some "deploy"; hostname := "my-host"; reason := "testing";
              cacert := PBool true; even_url := PStr "https://x.example/";
              odd_host := PNone; config := ∅; password := "s3cret" |},
       sample_state {["piu.yaml" := RegularFile ""]} [], [])).
  { vm_compute. reflexivity. }
  assert (Hload :
    result_of (load_config (sample_env 200) (arg_config_file sample_args) (sample_state ∅ []))
    = Ret ∅).
  { vm_compute. reflexivity. }
  assert (Hpost : ∃ data,
    HttpPost "https://x.example/access-requests" (request_headers (PStr "t0k3n")) data
      (PBool true)
    ∈ events_of (cli (sample_env 200) sample_args (sample_state ∅ []))).
  { eexists. apply list_elem_of_In. vm_compute. right. right. left. reflexivity. }
  destruct Hpost as [data Hpost].
  exists "https://x.example/access-requests", (request_headers (PStr "t0k3n")), (PBool true).
  pose proof (proj2 (proj2 (proj2 (C6_request_body _ _ _ _ _ _ _ _ _ _ _ Hloc Hpost Hload)))
                eq_refl eq_refl eq_refl eq_refl eq_refl) as Hdata.
  by rewrite <- Hdata.
Defined.

(** C7, as the code has it.  [load_config] returns the empty configuration
    for a path that does not exist and for a file whose YAML document is not
    a mapping, and the mapping itself otherwise; it raises to its caller
    exactly when the path is a directory or [yaml.safe_load] rejects the
    contents of the file. *)
Theorem C7_load_config_outcomes e path st :
  (fs st !! path = None → load_config e path st = (Ret ∅, st, []))
  ∧ (∀ content doc,
       fs st !! path = Some (RegularFile content) →
       yaml_safe_load e content = Some doc →
       load_config e path st
       = (Ret (match doc with YDict d => d | YScalar _ | YList _ => ∅ end), st, []))
  ∧ (∀ x, result_of (load_config e path st) = Raise x
          ↔ (fs st !! path = Some Directory ∧ x = OSError)
            ∨ (∃ content, fs st !! path = Some (RegularFile content)
                          ∧ yaml_safe_load e content = None ∧ x = YAMLError)).
Proof.
  rewrite load_config_run. unfold result_of. simpl. split_and!.
  - by intros ->.
  - intros content doc -> ->. by destruct doc.
  - intros x. destruct (fs st !! path) as [[|content]|].
    + split; [intros [= <-]; by left | by intros [[_ ->] | (? & [=] & _)]].
    + destruct (yaml_safe_load e content) as [[]|] eqn:Hyaml;
        (split; [intros [=] | intros [[[=] _] | (? & [= <-] & ? & ->)]]); try done; try congruence.
      subst. right. by exists content.
    + split; [done | by intros [[[=] _] | (? & [=] & _)]].
Qed.

Lemma C7_load_config_outcomes_witness :
  load_config (sample_env 200) "piu.yaml" (sample_state {["piu.yaml" := RegularFile "- a"]} [])
  = (Ret ∅, sample_state {["piu.yaml" := RegularFile "- a"]} [], []).
Proof.
  exact (proj1 (proj2 (C7_load_config_outcomes (sample_env 200) "piu.yaml"
                         (sample_state {["piu.yaml" := RegularFile "- a"]} [])))
           "- a" (YList [PStr "a"]) eq_refl eq_refl).
Defined.

(** C7, as stated, fails: a configuration file that holds the unclosed flow
    mapping ["{"] makes [load_config] raise the error of the YAML parser
    instead of returning the empty configuration. *)
Lemma C7_malformed_yaml_raises :
  result_of (load_config (sample_env 200) "piu.yaml"
               (sample_state {["piu.yaml" := RegularFile "{"]} []))
  = Raise YAMLError
  ∧ result_of (load_config (sample_env 200) "piu.yaml"
                 (sample_state {["piu.yaml" := RegularFile "{"]} []))
    ≠ Ret ∅.
Proof. split; [reflexivity | discriminate]. Qed.

(** The [verify] argument of every request is the [cacert] of the
    configuration file when it has one, and the negation of [--insecure]
    otherwise. *)
Lemma cli_post_verify e a st url hdrs data verify config0 :
  HttpPost url hdrs data verify ∈ events_of (cli e a st) →
  result_of (load_config e (arg_config_file a) st) = Ret config0 →
  verify = match config0 !! "cacert" with
           | Some v => v
           | None => PBool (negb (arg_insecure a))
           end.
Proof.
  intros Hpost Hload.
  apply cli_post_inv in Hpost
    as (l & st1 & ev1 & s & token & msg & tail & Hloc & _ & _ & _ & _ & _ & -> & _).
  apply cli_locals_inv in Hloc as (_ & _ & Hl).
  destruct (Hl l eq_refl) as (cfg & Hcfg & _ & _ & -> & _).
  rewrite Hload in Hcfg. by injection Hcfg as <-.
Qed.

(** C8 at the failing input: with [--insecure] and a configuration file
    that says [cacert: true], the request is posted with [verify=True]. *)
Theorem C8_insecure_overridden_by_config :
  events_of (cli (sample_env 200) (with_insecure true sample_args)
               (sample_state {["piu.yaml" := RegularFile "cacert: true"]} []))
  = [TokenRequest (Some "alice") "s3cret";
     Secho "Requesting access to host my-host for deploy..";
     HttpPost "https://x.example/access-requests" (request_headers (PStr "t0k3n"))
       [("username", PStr "deploy"); ("hostname", PStr "my-host"); ("reason", PStr "testing")]
       (PBool true);
     Secho "ok";
     Secho "You can now access your server with the following command:";
     Secho "ssh -tA deploy@my-host ";
     KeyringSet "piu" (Some "alice") "s3cret"].
Proof. vm_compute. reflexivity. Qed.

(** Without a [cacert] in the configuration file, [--insecure] does switch
    the verification off. *)
Example insecure_without_cacert :
  events_of (cli (sample_env 200) (with_insecure true sample_args) (sample_state ∅ []))
  = [TokenRequest (Some "alice") "s3cret";
     Secho "Requesting access to host my-host for deploy..";
     HttpPost "https://x.example/access-requests" (request_headers (PStr "t0k3n"))
       [("username", PStr "deploy"); ("hostname", PStr "my-host"); ("reason", PStr "testing")]
       (PBool false);
     Secho "ok";
     Secho "You can now access your server with the following command:";
     Secho "ssh -tA deploy@my-host ";
     KeyringSet "piu" (Some "alice") "s3cret"].
Proof. vm_compute. reflexivity. Qed.

(** The text before the first separator. *)
Lemma first_sep sep s :
  Str.contains sep s = true →
  ∃ u rest, s = u +:+ String sep rest ∧ Str.contains sep u = false.
Proof.
  induction s as [|d s IH]; simpl; [done |].
  destruct (Str.ascii_eqb d sep) eqn:Hd; simpl.
  - intros _. apply ascii_eqb_true in Hd as ->. by exists "", s.
  - intros (u & rest & -> & Hu)%IH. exists (String d u), rest.
    split; [done |]. simpl. by rewrite Hd.
Qed.

(** C9, as the code has it.  Every access to the keyring in a run -- the
    read before the request, the write after a 200, the clearing after a
    403 -- is under the service ["piu"] and the user given by [--user],
    and no other key of the keyring changes.  That user is the user name of
    the access request exactly when [HOST] has no ['@'] or the text before
    its first ['@'] is that same user. *)
Theorem C9_keyring_keyed_by_user e a st :
  Forall (keyed_by (arg_user a)) (events_of (cli e a st))
  ∧ (∀ key, key ≠ ("piu", arg_user a) →
            keyring (state_of (cli e a st)) !! key = keyring st !! key)
  ∧ ((parse_host (arg_host a) (arg_user a)).1 = arg_user a
     ↔ Str.contains "@" (arg_host a) = false
       ∨ ∃ u rest, arg_host a = u +:+ "@" +:+ rest
                   ∧ Str.contains "@" u = false ∧ arg_user a = Some u).
Proof.
  assert (Hsetup : ∀ evs, Forall (setup_event (arg_user a)) evs →
                          Forall (keyed_by (arg_user a)) evs).
  { intros evs Hevs. eapply Forall_impl; [done |]. by intros []. }
  assert (Hreport : ∀ evs, Forall (report_event (arg_user a)) evs →
                           Forall (keyed_by (arg_user a)) evs).
  { intros evs Hevs. eapply Forall_impl; [done |]. by intros []. }
  assert (Hprefix : ∀ u rest, Str.contains "@" u = false →
                      (parse_host (u +:+ "@" +:+ rest) (arg_user a)).1 = Some u).
  { intros u rest Hu. unfold parse_host.
    destruct (split_head "@" u rest Hu) as (parts & Hparts & Hne).
    change (u +:+ "@" +:+ rest) with (u +:+ String "@" rest). rewrite Hparts.
    by destruct parts. }
  destruct (cli e a st) as [[r st'] evs] eqn:Hcli. unfold events_of, state_of. simpl.
  split_and!.
  - apply cli_inv in Hcli as [(x & Hloc & ->) | (l & st1 & ev1 & ev2 & Hloc & Hreq & ->)];
      apply cli_locals_inv in Hloc as (_ & Hev1%Hsetup & _); [done |].
    apply Forall_app. split; [done |].
    apply cli_request_inv in Hreq as [(_ & _ & _ & ->) | (s & _ & Hreq)]; [done |].
    destruct Hreq as [(_ & _ & _ & ->) | (token & msg & _ & Hreq)]; [by repeat constructor |].
    destruct Hreq as [(_ & _ & _ & ->)
                     | (status & text & tail & _ & _ & _ & -> & Htail%Hreport & _)];
      [by repeat constructor |].
    apply Forall_app. split; [by repeat constructor | done].
  - intros key Hkey.
    apply cli_inv in Hcli as [(x & Hloc & ->) | (l & st1 & ev1 & ev2 & Hloc & Hreq & ->)];
      apply cli_locals_inv in Hloc as (Hk1 & _ & _); [by rewrite Hk1 |].
    rewrite <- Hk1.
    apply cli_request_inv in Hreq as [(_ & _ & -> & _) | (s & _ & Hreq)]; [done |].
    destruct Hreq as [(_ & _ & -> & _) | (token & msg & _ & Hreq)]; [done |].
    destruct Hreq as [(_ & _ & -> & _) | (status & text & tail & _ & _ & -> & _)]; [done |].
    destruct (status =? 200); [by rewrite lookup_insert_ne |].
    destruct (status =? 403); [by rewrite lookup_insert_ne | done].
  - split.
    + intros Hsame. destruct (Str.contains "@" (arg_host a)) eqn:Hat; [right | by left].
      apply first_sep in Hat as (u & rest & Hhost & Hu).
      exists u, rest. split_and!; [done | done |].
      rewrite <- Hsame, Hhost. apply (Hprefix u rest Hu).
    + intros [Hno | (u & rest & Hhost & Hu & Huser)].
      * unfold parse_host. by rewrite (split_no_sep _ _ Hno).
      * rewrite Hhost, Huser. rewrite Huser in Hprefix. apply (Hprefix u rest Hu).
Qed.

Lemma C9_keyring_keyed_by_user_witness :
  Forall (keyed_by (Some "alice"))
    (events_of (cli (sample_env 200) (with_host "alice@my-host" (with_password None sample_args))
                  (sample_state ∅ ["s3cret"])))
  ∧ keyring (state_of (cli (sample_env 200)
                         (with_host "alice@my-host" (with_password None sample_args))
                         (sample_state ∅ ["s3cret"]))) !! ("mail", Some "alice")
    = None
  ∧ (parse_host "alice@my-host" (Some "alice")).1 = Some "alice".
Proof.
  pose proof (C9_keyring_keyed_by_user (sample_env 200)
                (with_host "alice@my-host" (with_password None sample_args))
                (sample_state ∅ ["s3cret"])) as (Hevents & Hframe & Hsame).
  split_and!.
  - exact Hevents.
  - rewrite (Hframe ("mail", Some "alice")); [reflexivity | discriminate].
  - apply Hsame. right. exists "alice", "my-host". split_and!; reflexivity.
Defined.

(** C9, as stated, fails: for [deploy@my-host] run by [alice] without
    [--password], the keyring is read and written under [alice], while the
    user name of the access request is [deploy]. *)
Lemma C9_keyring_not_keyed_by_request_username :
  events_of (cli (sample_env 200) (with_password None sample_args)
               (sample_state ∅ ["s3cret"]))
  = [KeyringGet "piu" (Some "alice");
     Prompt "Password" true (Some "s3cret");
     TokenRequest (Some "alice") "s3cret";
     Secho "Requesting access to host my-host for deploy..";
     HttpPost "https://x.example/access-requests" (request_headers (PStr "t0k3n"))
       [("username", PStr "deploy"); ("hostname", PStr "my-host"); ("reason", PStr "testing")]
       (PBool true);
     Secho "ok";
     Secho "You can now access your server with the following command:";
     Secho "ssh -tA deploy@my-host ";
     KeyringSet "piu" (Some "alice") "s3cret"]
  ∧ ¬ Forall (keyed_by (parse_host "deploy@my-host" (Some "alice")).1)
        (events_of (cli (sample_env 200) (with_password None sample_args)
                      (sample_state ∅ ["s3cret"]))).
Proof.
  split; [vm_compute; reflexivity |].
  intros Hall. rewrite Forall_forall in Hall.
  assert (Hin : KeyringGet "piu" (Some "alice")
                ∈ events_of (cli (sample_env 200) (with_password None sample_args)
                               (sample_state ∅ ["s3cret"]))).
  { apply list_elem_of_In. vm_compute. tauto. }
  by destruct (Hall _ Hin) as [_ [=]].
Qed.

(** The user name and the host name of [u@...@h]. *)
Lemma parse_host_ends u rest h user :
  Str.contains "@" u = false →
  Str.contains "@" h = false →
  (rest = "" ∨ ∃ mid, rest = mid +:+ "@") →
  parse_host (u +:+ "@" +:+ rest +:+ h) user = (Some u, h).
Proof.
  intros Hu Hh Hrest. unfold parse_host.
  assert (Hhead : ∃ parts, Str.split "@" (u +:+ "@" +:+ rest +:+ h) = u :: parts ∧ parts ≠ []).
  { apply (split_head "@" u (rest +:+ h) Hu). }
  assert (Hlast : last (Str.split "@" (u +:+ "@" +:+ rest +:+ h)) = Some h).
  { destruct Hrest as [-> | [mid ->]].
    - destruct (split_last "@" u h Hh) as (parts & Hparts & _).
      rewrite append_nil_l. change ("@" +:+ h) with (String "@" h).
      rewrite Hparts. apply last_snoc.
    - destruct (split_last "@" (u +:+ "@" +:+ mid) h Hh) as (parts & Hparts & _).
      rewrite !append_assoc in Hparts. rewrite !append_assoc.
      change ("@" +:+ h) with (String "@" h). rewrite Hparts. apply last_snoc. }
  destruct Hhead as (parts & Hparts & Hne). rewrite Hlast, Hparts.
  destruct parts; [done |]. done.
Qed.

Lemma contains_count c s : Str.contains c s = true ↔ (0 < Str.count c s)%nat.
Proof.
  induction s as [|d s IH]; simpl; [split; [done | lia] |].
  rewrite orb_true_iff, IH. destruct (Str.ascii_eqb d c); split; intros; try lia; tauto.
Qed.

(** The text after the last separator. *)
Lemma last_sep sep s :
  Str.contains sep s = true →
  ∃ pre h, s = pre +:+ String sep h ∧ Str.contains sep h = false.
Proof.
  induction s as [|d s IH]; simpl; [done |].
  destruct (Str.contains sep s) eqn:Hs.
  - intros _. destruct (IH eq_refl) as (pre & h & -> & Hh). by exists (String d pre), h.
  - rewrite orb_false_r. intros ->%ascii_eqb_true. by exists "", s.
Qed.

Lemma count_after_first sep u rest :
  Str.contains sep u = false →
  Str.count sep (u +:+ String sep rest) = S (Str.count sep rest).
Proof.
  induction u as [|d u IH]; rewrite ?append_cons, ?append_nil_l; simpl.
  - intros _. by rewrite ascii_eqb_refl.
  - intros [Hd Hu]%orb_false_iff. by rewrite Hd, (IH Hu).
Qed.

(** C10.  A [HOST] with more than one ['@'] is [u@mid@h] with no ['@'] in
    [u] and none in [h]: the user name is [u], the text before the first
    ['@'], the host name is [h], the text after the last one, and [mid]
    plays no part: the run is that of [u@h]. *)
Theorem C10_text_between_ats_is_dropped host user :
  (2 ≤ Str.count "@" host)%nat →
  ∃ u mid h,
    host = u +:+ "@" +:+ mid +:+ "@" +:+ h
    ∧ Str.contains "@" u = false
    ∧ Str.contains "@" h = false
    ∧ parse_host host user = (Some u, h)
    ∧ ∀ e a st,
        arg_host a = host → cli e a st = cli e (with_host (u +:+ "@" +:+ h) a) st.
Proof.
  intros Hcount.
  destruct (first_sep "@" host) as (u & rest & -> & Hu); [apply contains_count; lia |].
  rewrite (count_after_first _ _ _ Hu) in Hcount.
  destruct (last_sep "@" rest) as (mid & h & -> & Hh); [apply contains_count; lia |].
  exists u, mid, h.
  assert (Hlong : ∀ user', parse_host (u +:+ "@" +:+ mid +:+ "@" +:+ h) user' = (Some u, h)).
  { intros user'. rewrite <- (append_assoc mid "@" h).
    apply parse_host_ends; [done | done | right; by exists mid]. }
  assert (Hshort : ∀ user', parse_host (u +:+ "@" +:+ h) user' = (Some u, h)).
  { intros user'. apply (parse_host_ends u "" h user'); [done | done | by left]. }
  split_and!; [done | done | done | apply Hlong |].
  intros e a st Hhost. unfold cli, cli_locals, cli_request.
  cbn [with_host arg_host arg_user arg_password arg_even_url arg_odd_host arg_reason
       arg_reason_cont arg_insecure arg_config_file arg_lifetime arg_clip].
  rewrite Hhost. change (u +:+ String "@" (mid +:+ String "@" h))
    with (u +:+ "@" +:+ mid +:+ "@" +:+ h).
  by rewrite Hlong, Hshort.
Qed.

Lemma C10_text_between_ats_is_dropped_witness :
  ∃ u mid h,
    "deploy@ignored@my-host" = u +:+ "@" +:+ mid +:+ "@" +:+ h
    ∧ Str.contains "@" u = false
    ∧ Str.contains "@" h = false
    ∧ parse_host "deploy@ignored@my-host" (Some "alice") = (Some u, h)
    ∧ ∀ e a st,
        arg_host a = "deploy@ignored@my-host" →
        cli e a st = cli e (with_host (u +:+ "@" +:+ h) a) st.
Proof.
  apply (C10_text_between_ats_is_dropped "deploy@ignored@my-host" (Some "alice")).
  vm_compute. lia.
Defined.

Example host_with_three_ats :
  parse_host "a@b@c@d" None = (Some "a", "d") ∧ parse_host "@@" (Some "alice") = (Some "", "")
  ∧ parse_host "my-host" (Some "alice") = (Some "alice", "my-host")
  ∧ parse_host "@my-host" (Some "alice") = (Some "", "my-host").
Proof. repeat split; reflexivity. Qed.

(** * Further properties of the program *)

(** ** The host argument *)

Lemma split_parts_no_sep sep s : Forall (λ p, Str.contains sep p = false) (Str.split sep s).
Proof.
  induction s as [|c s IH]; simpl; [by repeat constructor |].
  destruct (Str.ascii_eqb c sep) eqn:Hc; [by constructor |].
  destruct (Str.split sep s) as [|p parts] eqn:Hs; [by apply split_nonempty in Hs |].
  apply Forall_cons in IH as [Hp Hparts]. constructor; [| done]. simpl. by rewrite Hc, Hp.
Qed.

(** Joining the parts of [s.split(sep)] with [sep] gives [s] back, and
    no part holds the separator. *)
Theorem split_join_roundtrip sep s :
  Str.join (String sep "") (Str.split sep s) = s
  ∧ Forall (λ p, Str.contains sep p = false) (Str.split sep s).
Proof.
  split; [| apply split_parts_no_sep].
  induction s as [|c s IH]; simpl; [done |].
  destruct (Str.ascii_eqb c sep) eqn:Hc.
  - apply ascii_eqb_true in Hc as ->.
    destruct (Str.split sep s) as [|p parts] eqn:Hs; [by apply split_nonempty in Hs |].
    change (Str.join (String sep "") ("" :: p :: parts))
      with ("" +:+ String sep "" +:+ Str.join (String sep "") (p :: parts)).
    by rewrite IH.
  - destruct (Str.split sep s) as [|p parts] eqn:Hs; [by apply split_nonempty in Hs |].
    rewrite <- IH. destruct parts as [|q parts]; [done |].
    change (Str.join (String sep "") (String c p :: q :: parts))
      with (String c p +:+ String sep "" +:+ Str.join (String sep "") (q :: parts)).
    change (Str.join (String sep "") (p :: q :: parts))
      with (p +:+ String sep "" +:+ Str.join (String sep "") (q :: parts)).
    by rewrite append_cons.
Qed.



(** ** The service URL *)


(** ** Routing *)


(** ** Runs *)








(** ** The configuration file *)




(** ** The prompts *)





